(** * privy-auth-demo: the client-side session orchestration, verified

    A shallow embedding of the two React clients of the repository

    - [UploadClient]: src/unnamed/part_000, the client built on
      [UploadHttpLink] (login exchange, "me" synchronisation, profile
      picture upload, sign-out);
    - [BasicClient]: src/unnamed/part_001, the client built on [HttpLink]
      (login exchange and sign-out only).

    An [async] function of the source is a tree of type [Async]: its
    synchronous side effects ([console.log], [alert], the [useState]
    setters) are [Do] nodes, every [await] is an [Await] node whose
    continuation receives the settled promise, and [throw] is [Throw].
    [try]/[catch]/[finally] are functions on such trees.  A world holds the
    React state of the components, the suspended continuations and the log
    of everything observable; the event loop is the function [step].

    [AccountPanel] holds the texts of the provider's account panel that
    both clients render, and [Introspect] the schema introspection script
    src/introspect.ts. *)

From Stdlib Require Import String List Bool Arith NArith ZArith Lia DecimalString.
Import ListNotations.
Local Open Scope string_scope.

(** ** JavaScript values used by the clients *)

(** Truthiness of a [string | null | undefined]: only a non-empty string is
    truthy. *)
Definition nonempty (s : string) : bool :=
  match s with EmptyString => false | String _ _ => true end.

Definition truthy (v : option string) : bool :=
  match v with Some s => nonempty s | None => false end.

(** The string tested by [if (v)], when the test succeeds. *)
Definition truthy_value (v : option string) : option string :=
  match v with
  | Some s => if nonempty s then Some s else None
  | None => None
  end.

(** Truthiness of an [object | null | undefined]: every object is truthy. *)
Definition truthy_obj {A : Type} (v : option A) : bool :=
  match v with Some _ => true | None => false end.

(** [v || null] on a [string | null | undefined]. *)
Definition or_null (v : option string) : option string :=
  if truthy v then v else None.

(** [s || d] on strings. *)
Definition or_default (s d : string) : string :=
  if nonempty s then s else d.

(** [s.startsWith(p)] *)
Definition startsWith (s p : string) : bool := String.prefix p s.

(** The thrown and rejected values: only [error.message] is read. *)
Record Error : Type := mkError { message : string }.

(** The backend user record selected by LOGIN_MUTATION, ME_QUERY and
    UPDATE_USER_MUTATION. *)
Module User.
Record t : Type := mk {
  id : string;
  displayName : option string;
  username : option string;
  profilePictureUrl : option string;
  bio : option string;
  createdAt : string;
  updatedAt : string
}.

Definition opt_eqb (a b : option string) : bool :=
  match a, b with
  | Some x, Some y => String.eqb x y
  | None, None => true
  | _, _ => false
  end.

Definition eqb (u v : t) : bool :=
  String.eqb (id u) (id v) && opt_eqb (displayName u) (displayName v)
  && opt_eqb (username u) (username v)
  && opt_eqb (profilePictureUrl u) (profilePictureUrl v)
  && opt_eqb (bio u) (bio v) && String.eqb (createdAt u) (createdAt v)
  && String.eqb (updatedAt u) (updatedAt v).
End User.

(** The DOM [File] as far as [handleFileChange] reads it. *)
Module File.
Record t : Type := mk { name : string; type : string; size : N }.
End File.

(** [UpdateUserMutationVariables.input] *)
Record UserUpdateInput : Type := mkInput {
  input_displayName : option string;
  input_username : option string;
  input_profilePictureUrl : option string;
  input_bio : option string
}.

Inductive Query : Type := ME_QUERY.

(** Results of the GraphQL operations; [data] may be absent and so may the
    selected field, which is why the source reads them with [?.]. *)
Record MutationResult (D : Type) : Type := mkResult { data : option D }.
Arguments mkResult {D} _.
Arguments data {D} _.

Record LoginMutation : Type := { login : option User.t }.
Record LogoutMutation : Type := { logout_ok : bool }.
Record FileMetadata : Type := {
  filename : string; mimetype : string; meta_size : N; url : string
}.
Record UploadFileMutation : Type := { uploadFile_ : option FileMetadata }.
Record UpdateUserMutation : Type := { updateUser_ : option User.t }.
Record MeQuery : Type := { me : option User.t }.

(** [result.data?.login] *)
Definition data_login (result : MutationResult LoginMutation) : option User.t :=
  match data result with Some d => login d | None => None end.

(** [uploadResult.data?.uploadFile?.url] *)
Definition data_uploadFile_url (uploadResult : MutationResult UploadFileMutation)
  : option string :=
  match data uploadResult with
  | Some d => match uploadFile_ d with Some m => Some (url m) | None => None end
  | None => None
  end.

(** [meData?.me] *)
Definition meData_me (meData : option MeQuery) : option User.t :=
  match meData with Some d => me d | None => None end.

(** ** Asynchronous calls and how they settle *)

Inductive Outcome (A : Type) : Type :=
| Fulfilled (value : A)
| Rejected (error : Error).
Arguments Fulfilled {A} _.
Arguments Rejected {A} _.

(** Everything a handler waits for: the identity provider's capabilities,
    the GraphQL operations and the [FileReader]. *)
Inductive Call : Type :=
| getAccessToken
| loginMutation (privyToken : string)
| logout
| logoutMutation
| uploadFile (file : File.t)
| updateUser (id : string) (input : UserUpdateInput) (refetchQueries : list Query)
| readAsDataURL (file : File.t).

(** What the continuation receives: a settled promise, or for the
    [FileReader] the value of [reader.result] at [loadend]. *)
Definition settled (c : Call) : Type :=
  match c with
  | getAccessToken => Outcome (option string)
  | loginMutation _ => Outcome (MutationResult LoginMutation)
  | logout => Outcome unit
  | logoutMutation => Outcome (MutationResult LogoutMutation)
  | uploadFile _ => Outcome (MutationResult UploadFileMutation)
  | updateUser _ _ _ => Outcome (MutationResult UpdateUserMutation)
  | readAsDataURL _ => option string
  end.

(** Backend operations, the requests that reach the GraphQL endpoint. *)
Definition is_network (c : Call) : bool :=
  match c with
  | loginMutation _ | logoutMutation | uploadFile _ | updateUser _ _ _ => true
  | getAccessToken | logout | readAsDataURL _ => false
  end.

Definition is_login (c : Call) : bool :=
  match c with loginMutation _ => true | _ => false end.

(** Synchronous side effects.  A [console] call is recorded with its first
    argument, the label, written without its leading pictograph. *)
Inductive Effect : Type :=
| console_log (label : string)
| console_error (label : string)
| alert (text : string)
| setBackendUser (u : option User.t)
| setUploading (b : bool)
| setPreviewUrl (p : option string).

(** ** Async functions as trees *)

Inductive Async : Type :=
| Done
| Throw (error : Error)
| Do (e : Effect) (k : Async)
| Await (c : Call) (k : settled c -> Async)
| Spawn (callback : Async) (k : Async).

(** [await c]: a rejected promise is thrown at the await. *)
Definition await {A} (c : Call) (cast : settled c = Outcome A) (k : A -> Async)
  : Async :=
  Await c (fun o =>
    match eq_rect _ (fun T => T) o _ cast with
    | Fulfilled v => k v
    | Rejected error => Throw error
    end).

(** [await] of a mutate function that [useMutation] created with the
    options [onCompleted] and [onError]: the callback runs when the mutation
    ends, before the handler resumes. *)
Definition await_with {A} (c : Call) (cast : settled c = Outcome A)
    (onCompleted : A -> Effect) (onError : Error -> Effect) (k : A -> Async)
  : Async :=
  Await c (fun o =>
    match eq_rect _ (fun T => T) o _ cast with
    | Fulfilled v => Do (onCompleted v) (k v)
    | Rejected error => Do (onError error) (Throw error)
    end).

(** [try { body } catch (error) { handler error }] *)
Fixpoint try_catch (body : Async) (handler : Error -> Async) : Async :=
  match body with
  | Done => Done
  | Throw error => handler error
  | Do e k => Do e (try_catch k handler)
  | Await c k => Await c (fun o => try_catch (k o) handler)
  | Spawn cb k => Spawn cb (try_catch k handler)
  end.

(** [a; b]: [b] runs when [a] completes normally. *)
Fixpoint seq (a b : Async) : Async :=
  match a with
  | Done => b
  | Throw error => Throw error
  | Do e k => Do e (seq k b)
  | Await c k => Await c (fun o => seq (k o) b)
  | Spawn cb k => Spawn cb (seq k b)
  end.

(** [try { body } finally { fin }], for a [fin] that completes normally. *)
Fixpoint try_finally (body fin : Async) : Async :=
  match body with
  | Done => fin
  | Throw error => seq fin (Throw error)
  | Do e k => Do e (try_finally k fin)
  | Await c k => Await c (fun o => try_finally (k o) fin)
  | Spawn cb k => Spawn cb (try_finally k fin)
  end.

Declare Scope async_scope.
Delimit Scope async_scope with async.
Bind Scope async_scope with Async.
Notation "e ;; k" := (Do e k%async)
  (at level 61, right associativity) : async_scope.
Notation "'let!' x ':=' c 'in' k" := (await c eq_refl (fun x => k%async))
  (at level 10, x name, c at level 10, k at level 200) : async_scope.
Local Open Scope async_scope.

(** ** The handlers of the upload-capable client (src/unnamed/part_000) *)

Module UploadClient.

Definition MAX_FILE_SIZE : N := 5 * 1024 * 1024.

(** [ProfileImageUpload.handleFileChange], closed over the props [userId]
    and [currentImageUrl] of the render that created it; [file] is
    [e.target.files?.[0]].  [uploadFile] is the mutate function of
    [useMutation(UPLOAD_FILE_MUTATION, { onCompleted, onError })], whose two
    callbacks log to the console; [updateUser] has no callbacks. *)
Definition handleFileChange (userId : string) (currentImageUrl : option string)
    (file : option File.t) : Async :=
  match file with
  | None => Done
  | Some file =>
    console_log "Selected file:" ;;
    if negb (startsWith (File.type file) "image/") then
      alert "Please select an image file" ;; Done
    else if (MAX_FILE_SIZE <? File.size file)%N then
      alert ("File size must be less than "
             ++ NilEmpty.string_of_uint (N.to_uint (MAX_FILE_SIZE / 1024 / 1024))
             ++ "MB") ;; Done
    else
      try_finally
        (try_catch
           (setUploading true ;;
            Spawn (Await (readAsDataURL file)
                     (fun result => setPreviewUrl result ;; Done))
              (console_log "Starting upload with apollo-upload-client..." ;;
               await_with (uploadFile file) eq_refl
                 (fun result => console_log "File uploaded successfully:")
                 (fun error => console_error "Upload error:")
                 (fun uploadResult =>
                    console_log "Upload result:" ;;
                    match truthy_value (data_uploadFile_url uploadResult) with
                    | Some imageUrl =>
                      console_log "File uploaded, updating user profile with URL:" ;;
                      let! _updated :=
                        updateUser userId
                          (mkInput None None (Some imageUrl) None) [ME_QUERY] in
                      console_log "Profile image uploaded successfully:" ;;
                      alert "Profile picture updated successfully!" ;; Done
                    | None => Throw (mkError "No URL returned from upload")
                    end)))
           (fun error =>
              console_error "Failed to upload profile image:" ;;
              console_error "Error details:" ;;
              alert ("Failed to upload image: "
                     ++ or_default (message error) "Please try again.") ;;
              setPreviewUrl (or_null currentImageUrl) ;; Done))
        (setUploading false ;; Done)
  end.

(** The orchestrator effect of [AuthComponent], closed over
    [authenticated] and [backendUser] of the render that scheduled it. *)
Definition handleBackendLogin (authenticated : bool)
    (backendUser : option User.t) : Async :=
  if authenticated && negb (truthy_obj backendUser) then
    try_catch
      (let! accessToken := getAccessToken in
       match truthy_value accessToken with
       | Some accessToken =>
         let! result := loginMutation accessToken in
         console_log "result" ;;
         match data_login result with
         | Some user =>
           setBackendUser (Some user) ;;
           console_log "Backend login successful:" ;; Done
         | None => Done
         end
       | None => Done
       end)
      (fun error => console_error "Backend login failed:" ;; Done)
  else Done.

(** [useQuery(ME_QUERY, { skip: !backendUser })] *)
Definition meQuery_skip (backendUser : option User.t) : bool :=
  negb (truthy_obj backendUser).

(** The effect on [[meData]]: [if (meData?.me) setBackendUser(meData.me)]. *)
Definition syncMeData (meData : option MeQuery) : Async :=
  match meData_me meData with
  | Some user => setBackendUser (Some user) ;; Done
  | None => Done
  end.

(** The [onClick] of the Sign Out button. *)
Definition onSignOut : Async :=
  try_catch
    (let! _void := logout in
     console_log "Privy logout successful" ;;
     let! result := logoutMutation in
     console_log "Backend logout successful:" ;;
     setBackendUser None ;; Done)
    (fun error => console_error "Logout failed:" ;; Done).

End UploadClient.

(** ** The handlers of the plain client (src/unnamed/part_001) *)

Module BasicClient.

Definition handleBackendLogin (authenticated : bool)
    (backendUser : option User.t) : Async :=
  if authenticated && negb (truthy_obj backendUser) then
    try_catch
      (let! accessToken := getAccessToken in
       match truthy_value accessToken with
       | Some accessToken =>
         let! result := loginMutation accessToken in
         console_log "result" ;;
         match data_login result with
         | Some user =>
           setBackendUser (Some user) ;;
           console_log "Backend login successful:" ;; Done
         | None => Done
         end
       | None => Done
       end)
      (fun error => console_error "Backend login failed:" ;; Done)
  else Done.

(** [useQuery(ME_QUERY, { skip: !backendUser })] *)
Definition meQuery_skip (backendUser : option User.t) : bool :=
  negb (truthy_obj backendUser).

(** [meData] is destructured from [useQuery] and never read: this client
    has no effect on [[meData]]. *)
Definition syncMeData (meData : option MeQuery) : Async := Done.

(** The [onClick] of the Sign Out button. *)
Definition onSignOut : Async :=
  try_catch
    (let! _void := logout in
     console_log "Privy logout successful" ;;
     let! result := logoutMutation in
     console_log "Backend logout successful:" ;;
     setBackendUser None ;; Done)
    (fun error => console_error "Logout failed:" ;; Done).

End BasicClient.

(** ** React state, rendering and the event loop *)

(** The [useState] cells of [ProfileImageUpload] while it is mounted. *)
Record UploadState : Type := mkUpload {
  uploading : bool;
  previewUrl : option string
}.

(** [usePrivy()]'s [ready] and [authenticated], the [backendUser] cell of
    [AuthComponent], and the cells of the [ProfileImageUpload] it renders
    (absent while that component is not mounted). *)
Record State : Type := mkState {
  ready : bool;
  authenticated : bool;
  backendUser : option User.t;
  upload : option UploadState
}.

Definition with_backendUser (u : option User.t) (st : State) : State :=
  mkState (ready st) (authenticated st) u (upload st).

Definition with_upload (us : option UploadState) (st : State) : State :=
  mkState (ready st) (authenticated st) (backendUser st) us.

(** A setter of an unmounted component changes nothing. *)
Definition apply_effect (e : Effect) (st : State) : State :=
  match e with
  | console_log _ | console_error _ | alert _ => st
  | setBackendUser u => with_backendUser u st
  | setUploading b =>
    with_upload (option_map (fun us => mkUpload b (previewUrl us)) (upload st)) st
  | setPreviewUrl p =>
    with_upload (option_map (fun us => mkUpload (uploading us) p) (upload st)) st
  end.

(** What [AuthComponent] returns, by the branches on [ready],
    [authenticated], [loginLoading] and [backendUser]. *)
Inductive View : Type :=
| LoadingView
| SignInView
| WelcomeView (connecting : bool) (profile : option User.t).

Definition render (loginLoading : bool) (st : State) : View :=
  if negb (ready st) then LoadingView
  else if negb (authenticated st) then SignInView
  else WelcomeView loginLoading (backendUser st).

(** Everything observable, in the order it happens. *)
Inductive Obs : Type :=
| Eff (e : Effect)
| Issued (c : Call).

Record World : Type := mkWorld {
  state : State;
  pending : list Async;
  trace : list Obs
}.

Definition perform (e : Effect) (w : World) : World :=
  mkWorld (apply_effect e (state w)) (pending w) (trace w ++ [Eff e]).

Definition suspend (c : Call) (k : settled c -> Async) (w : World) : World :=
  mkWorld (state w) (pending w ++ [Await c k]) (trace w ++ [Issued c]).

Definition issue (c : Call) (w : World) : World :=
  mkWorld (state w) (pending w) (trace w ++ [Issued c]).

(** Run a task up to its next [await].  An error that nobody catches ends
    the task. *)
Fixpoint exec (t : Async) (w : World) : World :=
  match t with
  | Done => w
  | Throw _ => w
  | Do e k => exec k (perform e w)
  | Await c k => suspend c k w
  | Spawn cb k => exec k (exec cb w)
  end.

(** The environment's answers to the calls. *)
Definition Answers : Type := forall c : Call, settled c.

(** Run a handler on its own: each of its awaits is settled by [answer] as
    soon as it is issued, and nothing else happens in between.  A callback
    it registers is started and left pending. *)
Fixpoint run (answer : Answers) (t : Async) (w : World) : World :=
  match t with
  | Done => w
  | Throw _ => w
  | Do e k => run answer k (perform e w)
  | Await c k => run answer (k (answer c)) (issue c w)
  | Spawn cb k => run answer k (exec cb w)
  end.

(** The calls of a trace, and the requests among them. *)
Fixpoint calls (tr : list Obs) : list Call :=
  match tr with
  | [] => []
  | Issued c :: tr => c :: calls tr
  | Eff _ :: tr => calls tr
  end.

Definition requests (tr : list Obs) : list Call := filter is_network (calls tr).

Definition login_requests (tr : list Obs) : list Call := filter is_login (calls tr).

Fixpoint alerts (tr : list Obs) : list string :=
  match tr with
  | [] => []
  | Eff (alert text) :: tr => text :: alerts tr
  | _ :: tr => alerts tr
  end.

(** A client: the handlers its components install. *)
Record Client : Type := mkClient {
  effect_login : bool -> option User.t -> Async;
  effect_meData : option MeQuery -> Async;
  query_skip : option User.t -> bool;
  click_signOut : Async;
  change_file : option (string -> option string -> option File.t -> Async)
}.

Definition uploadClient : Client :=
  mkClient UploadClient.handleBackendLogin UploadClient.syncMeData
    UploadClient.meQuery_skip UploadClient.onSignOut
    (Some UploadClient.handleFileChange).

Definition basicClient : Client :=
  mkClient BasicClient.handleBackendLogin BasicClient.syncMeData
    BasicClient.meQuery_skip BasicClient.onSignOut None.

(** What can happen to the page.  [MeData] is [useQuery] delivering a new
    [meData]; the request behind it is Apollo's own, sent under its cache
    policy once the query is no longer skipped, and is not among the calls
    of the trace, which are those the handlers make. *)
Inductive Event : Type :=
| PrivyReady
| PrivyAuthenticated (b : bool)
| DepsChanged
| MeData (meData : option MeQuery)
| ClickSignOut
| FileChange (file : option File.t)
| Settle (i : nat) (answer : Answers).

Definition remove_nth {A : Type} (i : nat) (l : list A) : list A :=
  firstn i l ++ skipn (S i) l.

Definition with_state (st : State) (w : World) : World :=
  mkWorld st (pending w) (trace w).

(** [useState(currentImageUrl || null)] and [useState(false)] at mount. *)
Definition mount_upload (currentImageUrl : option string) : UploadState :=
  mkUpload false (or_null currentImageUrl).

(** [ProfileImageUpload] is in the tree exactly under
    [ready && authenticated && backendUser]; it keeps its cells while it
    stays in the tree and gets fresh ones when it enters it. *)
Definition reconcile (cl : Client) (st : State) : State :=
  match change_file cl, backendUser st with
  | Some _, Some user =>
    if ready st && authenticated st then
      match upload st with
      | Some _ => st
      | None => with_upload (Some (mount_upload (User.profilePictureUrl user))) st
      end
    else with_upload None st
  | _, _ => with_upload None st
  end.

Definition same_user (a b : option User.t) : bool :=
  match a, b with
  | Some u, Some v => User.eqb u v
  | None, None => true
  | _, _ => false
  end.

(** The event itself. *)
Definition dispatch (cl : Client) (ev : Event) (w : World) : World :=
  let st := state w in
  match ev with
  | PrivyReady =>
    with_state (mkState true (authenticated st) (backendUser st) (upload st)) w
  | PrivyAuthenticated b =>
    with_state (mkState (ready st) b (backendUser st) (upload st)) w
  | DepsChanged =>
    exec (effect_login cl (authenticated st) (backendUser st)) w
  | MeData meData =>
    if query_skip cl (backendUser st) then w else exec (effect_meData cl meData) w
  | ClickSignOut =>
    if ready st && authenticated st then exec (click_signOut cl) w else w
  | FileChange file =>
    match change_file cl, upload st, backendUser st with
    | Some handler, Some us, Some user =>
      if uploading us then w
      else exec (handler (User.id user) (User.profilePictureUrl user) file) w
    | _, _, _ => w
    end
  | Settle i answer =>
    match nth_error (pending w) i with
    | Some (Await c k) =>
      exec (k (answer c)) (mkWorld st (remove_nth i (pending w)) (trace w))
    | _ => w
    end
  end.

(** One turn of the event loop: the event, the re-render, and the
    orchestrator effect when [authenticated] or [backendUser], two of its
    dependencies, changed.  [DepsChanged] is a render in which one of the
    other two, [getAccessToken] or [loginMutation], is a new function.
    React compares [backendUser] by identity; comparing the records gives the
    same behaviour, since the effect does nothing when a user is cached. *)
Definition step (cl : Client) (w : World) (ev : Event) : World :=
  let w1 := dispatch cl ev w in
  let w2 := with_state (reconcile cl (state w1)) w1 in
  if Bool.eqb (authenticated (state w)) (authenticated (state w2))
     && same_user (backendUser (state w)) (backendUser (state w2))
  then w2
  else exec (effect_login cl (authenticated (state w2)) (backendUser (state w2))) w2.

Definition steps (cl : Client) (w : World) (evs : list Event) : World :=
  fold_left (step cl) evs w.

(** The first render: nothing is ready, nobody is authenticated, and the
    effects of the mount find nothing to do. *)
Definition initial : World :=
  mkWorld (mkState false false None None) [] [].

(** The two clients by source file. *)
Inductive Variant : Type :=
| Part000
| Part001.

Definition client (v : Variant) : Client :=
  match v with
  | Part000 => uploadClient
  | Part001 => basicClient
  end.

(** A ready, provider-authenticated page with no backend user and an empty
    log. *)
Definition signed_in : World :=
  mkWorld (mkState true true None None) [] [].

(** The calls a handler makes, in order, when it runs on its own. *)
Definition call_order (answer : Answers) (t : Async) : list Call :=
  calls (trace (run answer t signed_in)).

(** The number of turns in which the provider's flag goes from false to
    true while no backend user is cached. *)
Fixpoint entries (cl : Client) (w : World) (evs : list Event) : nat :=
  match evs with
  | [] => 0
  | ev :: evs =>
    let w' := step cl w ev in
    (if negb (authenticated (state w)) && authenticated (state w')
        && negb (truthy_obj (backendUser (state w')))
     then 1 else 0) + entries cl w' evs
  end.

(** An upload attempt that passed validation fails when the upload is
    rejected, when its result has no URL, or when the profile update is
    rejected. *)
Definition attempt_fails (answer : Answers) (userId : string) (file : File.t)
  : bool :=
  match answer (uploadFile file) with
  | Rejected _ => true
  | Fulfilled uploadResult =>
    match truthy_value (data_uploadFile_url uploadResult) with
    | None => true
    | Some imageUrl =>
      match answer (updateUser userId (mkInput None None (Some imageUrl) None)
                      [ME_QUERY]) with
      | Rejected _ => true
      | Fulfilled _ => false
      end
    end
  end.

(** ** Concrete data for the examples *)

Definition ann : User.t :=
  User.mk "u1" (Some "Ann") None None None "2025-01-01" "2025-01-01".

Definition ann_with_picture : User.t :=
  User.mk "u1" (Some "Ann") None (Some "https://x/y.png") None
    "2025-01-01" "2025-01-02".

Definition bob : User.t :=
  User.mk "u2" (Some "Bob") None None None "2025-01-01" "2025-01-03".

Definition jpeg_2MB : File.t := File.mk "a.jpg" "image/jpeg" 2000000.
Definition png_1MB : File.t := File.mk "b.png" "image/png" 1000000.
Definition jpeg_10MB : File.t := File.mk "big.jpg" "image/jpeg" 10000000.
Definition pdf_10MB : File.t := File.mk "big.pdf" "application/pdf" 10000000.
Definition text_1KB : File.t := File.mk "notes.txt" "text/plain" 1024.

Definition y_png : FileMetadata :=
  Build_FileMetadata "a.jpg" "image/jpeg" 2000000 "https://x/y.png".

(** Every call succeeds. *)
Definition all_fulfilled : Answers := fun c =>
  match c return settled c with
  | getAccessToken => Fulfilled (Some "tok_abc")
  | loginMutation _ =>
    Fulfilled (mkResult (Some (Build_LoginMutation (Some ann))))
  | logout => Fulfilled tt
  | logoutMutation => Fulfilled (mkResult (Some (Build_LogoutMutation true)))
  | uploadFile _ =>
    Fulfilled (mkResult (Some (Build_UploadFileMutation (Some y_png))))
  | updateUser _ _ _ =>
    Fulfilled (mkResult (Some (Build_UpdateUserMutation (Some ann_with_picture))))
  | readAsDataURL _ => Some "data:image/jpeg;base64,AAAA"
  end.

Definition network_down : Error := mkError "Failed to fetch".

(** As [all_fulfilled], with one call answered differently. *)
Definition empty_token : Answers := fun c =>
  match c return settled c with
  | getAccessToken => Fulfilled (Some "")
  | c => all_fulfilled c
  end.

Definition login_rejected : Answers := fun c =>
  match c return settled c with
  | loginMutation _ => Rejected network_down
  | c => all_fulfilled c
  end.



Definition upload_rejected : Answers := fun c =>
  match c return settled c with
  | uploadFile _ => Rejected network_down
  | readAsDataURL _ => Some "data:image/png;base64,BBBB"
  | c => all_fulfilled c
  end.


(** The provider authenticates and the login exchange returns [ann]. *)
Definition events_login : list Event :=
  [PrivyReady; PrivyAuthenticated true;
   Settle 0 all_fulfilled; Settle 0 all_fulfilled].

(** The effect is re-run once while the first token is being fetched. *)
Definition events_retrigger : list Event :=
  [PrivyReady; PrivyAuthenticated true; DepsChanged;
   Settle 0 all_fulfilled; Settle 0 all_fulfilled].

(** A picture is uploaded, the profile is updated and the refetched "me"
    arrives. *)
Definition events_first_upload : list Event :=
  [FileChange (Some jpeg_2MB);
   Settle 0 all_fulfilled; Settle 0 all_fulfilled; Settle 0 all_fulfilled;
   MeData (Some (Build_MeQuery (Some ann_with_picture)))].

(** A second picture is chosen, read, and its upload is rejected. *)
Definition events_failed_upload : list Event :=
  [FileChange (Some png_1MB); Settle 0 upload_rejected; Settle 0 upload_rejected].


Definition logged_in (cl : Client) : World := steps cl initial events_login.

Definition mounted : World :=
  mkWorld (mkState true true (Some ann) (Some (mount_upload None))) [] [].

(** ** Further observations and events *)

(** The labels of the [console.error] calls of a trace. *)
Fixpoint console_errors (tr : list Obs) : list string :=
  match tr with
  | [] => []
  | Eff (console_error label) :: tr => label :: console_errors tr
  | _ :: tr => console_errors tr
  end.

(** The rejection that ends an upload attempt that passed validation, when
    one does: of the upload, or of the profile update that follows it. *)
Definition attempt_rejection (answer : Answers) (userId : string) (file : File.t)
  : option Error :=
  match answer (uploadFile file) with
  | Rejected error => Some error
  | Fulfilled uploadResult =>
    match truthy_value (data_uploadFile_url uploadResult) with
    | None => None
    | Some imageUrl =>
      match answer (updateUser userId (mkInput None None (Some imageUrl) None)
                      [ME_QUERY]) with
      | Rejected error => Some error
      | Fulfilled _ => None
      end
    end
  end.

(** The events that come from the identity provider's hook alone. *)
Definition provider_event (ev : Event) : bool :=
  match ev with
  | PrivyReady | PrivyAuthenticated _ | DepsChanged => true
  | _ => false
  end.

(** The cells of [ProfileImageUpload] on a page that shows the backend
    profile: only the upload-capable client renders the component. *)
Definition shown (v : Variant) (us : UploadState) : option UploadState :=
  match v with
  | Part000 => Some us
  | Part001 => None
  end.

(** ** The account panel of [AuthComponent] *)

Module AccountPanel.

(** An index argument of [String.prototype.slice], resolved against the
    length: a negative index counts from the end, and both are clamped. *)
Definition slice_index (len : nat) (i : Z) : nat :=
  if (i <? 0)%Z then Z.to_nat (Z.max (Z.of_nat len + i) 0)
  else Nat.min (Z.to_nat i) len.

(** [s.slice(start, end)], an absent [end] meaning the length; the
    characters are the string's code units (an address is ASCII). *)
Definition slice (s : string) (start : Z) (end_ : option Z) : string :=
  let len := String.length s in
  let from := slice_index len start in
  let to := match end_ with Some e => slice_index len e | None => len end in
  substring from (to - from) s.

Record Wallet : Type := { address : string; chainType : option string }.
Record Email : Type := { email_address : string }.

(** A linked account, [any] in the source, by the fields the list reads. *)
Record Account : Type := {
  account_type : string;
  account_email : option Email;
  account_address : option string;
  account_username : option string
}.

(** [usePrivy().user] by the fields the panel reads. *)
Record PrivyUser : Type := {
  privy_id : string;
  wallet : option Wallet;
  email : option Email;
  linkedAccounts : option (list Account)
}.

(** The text after "Wallet:" in the wallet row. *)
Definition wallet_text (w : Wallet) : string :=
  " " ++ slice (address w) 0%Z (Some 6%Z) ++ "..."
  ++ slice (address w) (-4)%Z None
  ++ " (" ++ match truthy_value (chainType w) with
             | Some chain => chain
             | None => "ethereum"
             end ++ ")".

(** [account.email?.address || account.address || account.username || 'N/A'] *)
Definition account_label (account : Account) : string :=
  match truthy_value (option_map email_address (account_email account)) with
  | Some address => address
  | None =>
    match truthy_value (account_address account) with
    | Some address => address
    | None =>
      match truthy_value (account_username account) with
      | Some username => username
      | None => "N/A"
      end
    end
  end.

(** The items of the "Linked Accounts" list, when the list is rendered:
    under [linkedAccounts && linkedAccounts.length > 0]. *)
Definition linked_account_items (privyUser : PrivyUser) : option (list string) :=
  match linkedAccounts privyUser with
  | Some accounts =>
    if (0 <? List.length accounts)%nat
    then Some (map (fun account =>
                      account_type account ++ ": " ++ account_label account)
                 accounts)
    else None
  | None => None
  end.

End AccountPanel.

(** ** The introspection script (src/introspect.ts) *)

Module Introspect.

(** The parsed body of a GraphQL response as the script reads it: the
    [errors] array when there is one, and what
    [printSchema(buildClientSchema(result.data))] evaluates to, a thrown
    error included. *)
Record Result : Type := {
  errors : option (list string);
  printedSchema : Outcome string
}.

(** The [Response] of [fetch] with its two body readers. *)
Record Response : Type := {
  ok : bool;
  status : N;
  text : Outcome string;
  json : Outcome Result
}.

(** A line on standard output ([console.log]) or on standard error
    ([console.error], recorded with its label and, for a string, its
    second argument). *)
Inductive Line : Type :=
| stdout (s : string)
| stderr (s : string).

(** What the process printed and the status it ended with: 1 after
    [process.exit(1)], 0 when [introspect] ran to its end. *)
Record Run : Type := mkRun { lines : list Line; exit_status : N }.

Definition nl : string := String (Ascii.ascii_of_nat 10) "".

Section WithRegExp.

(** [schemaSDL.match(/uploadFile[^\n]*/gi)] and
    [schemaSDL.match(/type\s+\w*[Ff]ile\w*\s*\{[^}]*\}/gs)]: null or the
    array of matches, as the RegExp engine finds them. *)
Variable match_uploadFile : string -> option (list string).
Variable match_file_types : string -> option (list string).

(** The [catch] block, after what was already printed. *)
Definition on_error (printed : list Line) : Run :=
  mkRun (printed ++ [stderr "Error introspecting API:"]) 1.

Definition introspect (fetch : Outcome Response) : Run :=
  match fetch with
  | Rejected _ => on_error []
  | Fulfilled response =>
    if negb (ok response) then
      let printed :=
        [stderr ("HTTP error! status: "
                 ++ NilZero.string_of_uint (N.to_uint (status response)))] in
      match text response with
      | Rejected _ => on_error printed
      | Fulfilled text => mkRun (printed ++ [stderr ("Response: " ++ text)]) 1
      end
    else
      match json response with
      | Rejected _ => on_error []
      | Fulfilled result =>
        match errors result with
        | Some _ => mkRun [stderr "GraphQL errors:"] 1
        | None =>
          match printedSchema result with
          | Rejected _ => on_error []
          | Fulfilled schemaSDL =>
            mkRun
              ([stdout ("=== Full GraphQL Schema ===" ++ nl); stdout schemaSDL;
                stdout (nl ++ nl ++ "=== Looking for uploadFile resolver ===" ++ nl)]
               ++ match match_uploadFile schemaSDL with
                  | Some matches => map stdout matches
                  | None => [stdout "No uploadFile resolver found"]
                  end
               ++ [stdout (nl ++ nl ++ "=== File-related types ===" ++ nl)]
               ++ match match_file_types schemaSDL with
                  | Some matches => map stdout matches
                  | None => []
                  end)
              0
          end
        end
      end
  end.

End WithRegExp.

Fixpoint on_stdout (ls : list Line) : list string :=
  match ls with
  | [] => []
  | stdout s :: ls => s :: on_stdout ls
  | stderr _ :: ls => on_stdout ls
  end.

Fixpoint on_stderr (ls : list Line) : list string :=
  match ls with
  | [] => []
  | stderr s :: ls => s :: on_stderr ls
  | stdout _ :: ls => on_stderr ls
  end.

(** The schema text of a response that is ok, parses, carries no [errors]
    and builds. *)
Definition schema_of (fetch : Outcome Response) : option string :=
  match fetch with
  | Fulfilled response =>
    if ok response then
      match json response with
      | Fulfilled result =>
        match errors result, printedSchema result with
        | None, Fulfilled schemaSDL => Some schemaSDL
        | _, _ => None
        end
      | Rejected _ => None
      end
    else None
  | Rejected _ => None
  end.

End Introspect.

(** ** Further concrete data *)

(** The upload is rejected with an error that has no message. *)
Definition upload_rejected_silently : Answers := fun c =>
  match c return settled c with
  | uploadFile _ => Rejected (mkError "")
  | c => all_fulfilled c
  end.

(** The provider drops and raises its flag again, and a dependency of the
    effect changes. *)
Definition events_reauthenticate : list Event :=
  [PrivyAuthenticated false; PrivyAuthenticated true; DepsChanged].

Definition short_address : string := "0xAb".
Definition long_address : string := "0x1234567890abcdef1234567890abcdef12345678".

(** The login exchange returns a user who has a profile picture. *)
Definition login_returns_picture : Answers := fun c =>
  match c return settled c with
  | loginMutation _ =>
    Fulfilled (mkResult (Some (Build_LoginMutation (Some ann_with_picture))))
  | c => all_fulfilled c
  end.

(** The page after a first successful upload: the profile holds the URL
    the server returned, the preview the data URL of the chosen file. *)
Definition mounted_after_upload : World :=
  mkWorld (mkState true true (Some ann_with_picture)
             (Some (mkUpload false (Some "data:image/jpeg;base64,AAAA")))) [] [].

Definition account_by_email : AccountPanel.Account :=
  AccountPanel.Build_Account "email"
    (Some (AccountPanel.Build_Email "ann@example.com")) (Some "0xAb") None.

Definition account_by_address : AccountPanel.Account :=
  AccountPanel.Build_Account "wallet"
    (Some (AccountPanel.Build_Email "")) (Some "0xAb") (Some "ann").

Definition account_by_username : AccountPanel.Account :=
  AccountPanel.Build_Account "twitter_oauth" None (Some "") (Some "ann").

Definition account_unnamed : AccountPanel.Account :=
  AccountPanel.Build_Account "passkey" None None (Some "").

Definition privy_ann : AccountPanel.PrivyUser :=
  AccountPanel.Build_PrivyUser "did:privy:1" None None
    (Some [account_by_email; account_by_address; account_by_username;
           account_unnamed]).

(** ** Traces *)

Local Open Scope list_scope.

Lemma calls_app (tr tr' : list Obs) : calls (tr ++ tr') = calls tr ++ calls tr'.
Proof.
  induction tr as [|o tr IH]; simpl; [reflexivity|].
  destruct o; simpl; now rewrite IH.
Qed.

Lemma requests_app (tr tr' : list Obs) :
  requests (tr ++ tr') = requests tr ++ requests tr'.
Proof. unfold requests. now rewrite calls_app, filter_app. Qed.

Lemma login_requests_app (tr tr' : list Obs) :
  login_requests (tr ++ tr') = login_requests tr ++ login_requests tr'.
Proof. unfold login_requests. now rewrite calls_app, filter_app. Qed.

(** [run] settles an await the way the event loop does: suspending the
    task and then settling it, last in the queue, resumes its continuation
    with the call logged. *)
Lemma settle_resumes_suspended (cl : Client) (answer : Answers) (c : Call)
    (k : settled c -> Async) (w : World) :
  dispatch cl (Settle (length (pending w)) answer) (exec (Await c k) w) =
  exec (k (answer c)) (issue c w).
Proof.
  cbn [exec]. unfold dispatch, suspend, issue, remove_nth.
  cbn [pending state trace].
  rewrite nth_error_app2 by apply Nat.le_refl.
  rewrite Nat.sub_diag. cbn [nth_error].
  rewrite firstn_app, Nat.sub_diag, firstn_all. cbn [firstn].
  rewrite skipn_all2 by (rewrite length_app; cbn; lia).
  now rewrite !app_nil_r.
Qed.

(** Both clients install the same orchestrator effect and the same
    sign-out handler. *)
Lemma effect_login_client (v : Variant) :
  effect_login (client v) = UploadClient.handleBackendLogin.
Proof. destruct v; reflexivity. Qed.

Lemma click_signOut_client (v : Variant) :
  click_signOut (client v) = UploadClient.onSignOut.
Proof. destruct v; reflexivity. Qed.

(** The world after a handler ran on its own, by what it did. *)
Ltac run_handler :=
  unfold UploadClient.handleBackendLogin, UploadClient.onSignOut,
    UploadClient.handleFileChange, await, await_with;
  cbn [run exec try_catch try_finally seq andb negb truthy_obj eq_rect].

Ltac run_on := cbn [run exec try_catch try_finally seq eq_rect].

(** The resulting world by its three fields, the trace as one append. *)
Ltac world_fields :=
  cbn [issue perform suspend trace state pending];
  repeat rewrite <- app_assoc; cbn [app].

(** ** Sign-out order (C1) *)

(** C1, the claim as stated fails: with every call fulfilled, the sign-out
    handlers of the two clients make their two calls in the same order, so
    it is not the case that the orders differ. *)
Lemma signOut_orders_do_not_differ :
  ~ (call_order all_fulfilled UploadClient.onSignOut
     <> call_order all_fulfilled BasicClient.onSignOut).
Proof. intros H. apply H. reflexivity. Qed.

(** C1, amended: the two clients agree on logout ordering: however the
    calls end, their sign-out handlers do the same things and make the same
    calls in the same order; the calls are the identity provider's logout and
    the backend logout operation, each at most once, and both when both are
    fulfilled. *)
Theorem signOut_same_order_in_both_clients (answer : Answers) (w : World) :
  let upload_calls := call_order answer (click_signOut (client Part000)) in
  let plain_calls := call_order answer (click_signOut (client Part001)) in
  upload_calls = plain_calls
  /\ run answer (click_signOut (client Part000)) w
     = run answer (click_signOut (client Part001)) w
  /\ NoDup upload_calls
  /\ (forall c : Call, In c upload_calls -> c = logout \/ c = logoutMutation)
  /\ (forall r : MutationResult LogoutMutation,
        answer logout = Fulfilled tt -> answer logoutMutation = Fulfilled r ->
        In logout upload_calls /\ In logoutMutation upload_calls).
Proof.
  cbv zeta. split; [reflexivity|]. split; [reflexivity|].
  unfold call_order. cbn [client uploadClient click_signOut]. run_handler.
  destruct (answer logout) as [[]|e]; run_on;
    [destruct (answer logoutMutation) as [r|e]; run_on|];
    cbn; (split; [|split]);
    try (repeat constructor; cbn; intuition discriminate);
    try (intros c [<-|[<-|[]]]; auto);
    try (intros c [<-|[]]; auto);
    intros; try discriminate; auto.
Qed.

(** ** The login exchange (C2, C3) *)

(** The provider authenticates, the exchange for token "tok_abc" returns
    Ann's record: it is cached, the "me" query is no longer skipped, and one
    login exchange was issued. *)
Example login_scenario :
  let w := logged_in uploadClient in
  backendUser (state w) = Some ann
  /\ query_skip uploadClient (backendUser (state w)) = false
  /\ login_requests (trace w) = [loginMutation "tok_abc"].
Proof. vm_compute. repeat split. Qed.

(** C2, the claim as stated fails: the provider authenticates once, the
    effect is re-run while the first token is still being fetched, and two
    login exchanges are issued for the one transition. *)
Lemma retrigger_duplicates_login_exchange :
  entries uploadClient initial events_retrigger = 1 /\
  login_requests (trace (steps uploadClient initial events_retrigger)) =
  [loginMutation "tok_abc"; loginMutation "tok_abc"].
Proof. split; vm_compute; reflexivity. Qed.

(** C2, amended: a run of the orchestrator effect that sees a cached
    backend user (or no provider authentication) does nothing; a run that
    sees the provider authenticated and no cached backend user issues exactly
    one login exchange when a non-empty token is retrieved and none
    otherwise; and the transition into the authenticated state with no
    cached backend user starts exactly one such run. *)
Theorem login_exchange_once_per_effect_run (v : Variant) (answer : Answers)
    (w : World) :
  (forall (a : bool) (user : User.t), effect_login (client v) a (Some user) = Done)
  /\ (forall u : option User.t, effect_login (client v) false u = Done)
  /\ login_requests (trace (run answer (effect_login (client v) true None) w)) =
     login_requests (trace w) ++
     match answer getAccessToken with
     | Fulfilled accessToken =>
       match truthy_value accessToken with
       | Some tok => [loginMutation tok]
       | None => []
       end
     | Rejected _ => []
     end
  /\ (forall (r : bool) (us : option UploadState) (p : list Async) (tr : list Obs),
        step (client v) (mkWorld (mkState r false None us) p tr)
          (PrivyAuthenticated true) =
        mkWorld (mkState r true None None)
          (p ++ [effect_login (client v) true None])
          (tr ++ [Issued getAccessToken])).
Proof.
  rewrite effect_login_client. split; [|split; [|split]].
  - intros [] user; reflexivity.
  - intros u; reflexivity.
  - run_handler.
    destruct (answer getAccessToken) as [accessToken|e]; run_on;
      [destruct (truthy_value accessToken) as [tok|]; run_on;
       [destruct (answer (loginMutation tok)) as [result|e]; run_on;
        [destruct (data_login result); run_on|]|]|];
      world_fields; rewrite login_requests_app; reflexivity.
  - intros r us p tr. destruct v; reflexivity.
Qed.

(** C3, the claim as stated fails: the retrieved token is the empty string,
    which is not null, and no login exchange carrying it is issued. *)
Lemma empty_token_issues_no_exchange :
  empty_token getAccessToken = Fulfilled (Some "") /\
  calls (trace (run empty_token (UploadClient.handleBackendLogin true None)
                  signed_in)) = [getAccessToken].
Proof. split; reflexivity. Qed.

(** C3, amended: an invocation of the orchestrator with the provider
    authenticated and no cached backend user retrieves the token; if it is
    null or empty nothing more is done; otherwise one login exchange carrying
    exactly that token is issued; when it returns a user record the record is
    cached; when it is rejected the error is logged to the console and
    nothing else happens: no second request, no alert, no state change. *)
Theorem handleBackendLogin_exchange (v : Variant) (answer : Answers) (w : World) :
  let w' := run answer (effect_login (client v) true None) w in
  match answer getAccessToken with
  | Fulfilled accessToken =>
    match truthy_value accessToken with
    | None => w' = issue getAccessToken w
    | Some tok =>
      match answer (loginMutation tok) with
      | Fulfilled result =>
        match data_login result with
        | Some user =>
          state w' = with_backendUser (Some user) (state w)
          /\ pending w' = pending w
          /\ trace w' = trace w ++
               [Issued getAccessToken; Issued (loginMutation tok);
                Eff (console_log "result"); Eff (setBackendUser (Some user));
                Eff (console_log "Backend login successful:")]
        | None =>
          state w' = state w /\ pending w' = pending w
          /\ trace w' = trace w ++
               [Issued getAccessToken; Issued (loginMutation tok);
                Eff (console_log "result")]
        end
      | Rejected _ =>
        state w' = state w /\ pending w' = pending w
        /\ trace w' = trace w ++
             [Issued getAccessToken; Issued (loginMutation tok);
              Eff (console_error "Backend login failed:")]
      end
    end
  | Rejected _ =>
    state w' = state w /\ pending w' = pending w
    /\ trace w' = trace w ++
         [Issued getAccessToken; Eff (console_error "Backend login failed:")]
  end.
Proof.
  rewrite effect_login_client. run_handler.
  destruct (answer getAccessToken) as [accessToken|e]; run_on;
    [destruct (truthy_value accessToken) as [tok|]; run_on;
     [destruct (answer (loginMutation tok)) as [result|e]; run_on;
      [destruct (data_login result); run_on|]|reflexivity]|];
    world_fields; repeat split; reflexivity.
Qed.

(** ** The current-user query (C4) *)

(** C4, the claim as stated fails for the plain client: its query is
    eligible once [ann] is cached, the query returns a newer record, and the
    cached backend user is not overwritten. *)
Lemma plain_client_ignores_me_result :
  let w := logged_in basicClient in
  let w' := step basicClient w (MeData (Some (Build_MeQuery (Some ann_with_picture)))) in
  query_skip basicClient (backendUser (state w)) = false
  /\ backendUser (state w') = Some ann
  /\ backendUser (state w') <> Some ann_with_picture.
Proof. vm_compute. repeat split; discriminate. Qed.

Lemma exec_effect_login_state (a : bool) (u : option User.t) (w : World) :
  state (exec (UploadClient.handleBackendLogin a u) w) = state w.
Proof. destruct a, u; reflexivity. Qed.

Lemma reconcile_backendUser (cl : Client) (st : State) :
  backendUser (reconcile cl st) = backendUser st.
Proof.
  unfold reconcile.
  destruct (change_file cl), (backendUser st) eqn:E, (ready st && authenticated st),
    (upload st); cbn; congruence.
Qed.

(** The re-render and the re-run effect of a turn leave [backendUser] as
    the event set it. *)
Lemma step_backendUser (v : Variant) (w : World) (ev : Event) :
  backendUser (state (step (client v) w ev)) =
  backendUser (state (dispatch (client v) ev w)).
Proof.
  unfold step.
  match goal with |- context [if ?b then _ else _] => destruct b end.
  - cbn [with_state state]. apply reconcile_backendUser.
  - rewrite effect_login_client, exec_effect_login_state.
    cbn [with_state state]. apply reconcile_backendUser.
Qed.

(** C4, amended: in both clients the query's skip condition is lifted
    exactly when a backend user is cached, so it is after a login exchange
    that returned a user; in the upload-capable client a user record
    returned by the query overwrites the cached backend user, whatever was
    cached; the plain client never reads the query's result. *)
Theorem me_query_skip_and_sync (v : Variant) (answer : Answers) (w : World)
    (tok : string) (result : MutationResult LoginMutation) (user : User.t) :
  answer getAccessToken = Fulfilled (Some tok) ->
  nonempty tok = true ->
  answer (loginMutation tok) = Fulfilled result ->
  data_login result = Some user ->
  (forall u : option User.t,
     query_skip (client v) u = false <-> exists cached, u = Some cached)
  /\ query_skip (client v)
       (backendUser (state (run answer (effect_login (client v) true None) w)))
     = false
  /\ (forall (cached fresh : User.t) (r a : bool) (us : option UploadState)
        (p : list Async) (tr : list Obs),
        backendUser
          (state (step (client v) (mkWorld (mkState r a (Some cached) us) p tr)
                    (MeData (Some (Build_MeQuery (Some fresh)))))) =
        match v with
        | Part000 => Some fresh
        | Part001 => Some cached
        end).
Proof.
  intros Htok Hne Hlogin Huser. split; [|split].
  - intros u. destruct v, u; cbn; split; intros H;
      try discriminate; try (now eexists); now destruct H.
  - rewrite effect_login_client. run_handler. rewrite Htok. run_on.
    destruct tok; [discriminate|]. cbn [truthy_value nonempty]. run_on.
    rewrite Hlogin. run_on. rewrite Huser. run_on. now destruct v.
  - intros cached fresh r a us p tr. rewrite step_backendUser.
    destruct v; reflexivity.
Qed.

Lemma me_query_skip_and_sync_witness :
  data_login (mkResult (Some (Build_LoginMutation (Some ann)))) = Some ann
  /\ query_skip uploadClient
       (backendUser
          (state (run all_fulfilled (effect_login uploadClient true None)
                    signed_in))) = false
  /\ backendUser
       (state (step uploadClient (logged_in uploadClient)
                 (MeData (Some (Build_MeQuery (Some bob)))))) = Some bob.
Proof.
  pose proof (me_query_skip_and_sync Part000 all_fulfilled signed_in "tok_abc"
                (mkResult (Some (Build_LoginMutation (Some ann)))) ann
                eq_refl eq_refl eq_refl eq_refl) as [_ [Hskip Hsync]].
  split; [reflexivity|]. split; [exact Hskip|].
  exact (Hsync ann bob true true (Some (mount_upload None)) [] _).
Defined.

(** ** Sign-out (C5) *)



(** ** Profile picture upload (C6 to C10) *)

Lemma alerts_app (tr tr' : list Obs) : alerts (tr ++ tr') = alerts tr ++ alerts tr'.
Proof.
  induction tr as [|o tr IH]; simpl; [reflexivity|].
  destruct o as [[]|]; simpl; now rewrite IH.
Qed.


Lemma truthy_value_some (s : string) :
  nonempty s = true -> truthy_value (Some s) = Some s.
Proof. cbn. now intros ->. Qed.

(** A file that passes both validations reaches the [try] block. *)
Lemma handleFileChange_valid (userId : string) (currentImageUrl : option string)
    (file : File.t) :
  startsWith (File.type file) "image/" = true ->
  (File.size file <= 5242880)%N ->
  UploadClient.handleFileChange userId currentImageUrl (Some file) =
  (console_log "Selected file:" ;;
   try_finally
     (try_catch
        (setUploading true ;;
         Spawn (Await (readAsDataURL file)
                  (fun result => setPreviewUrl result ;; Done))
           (console_log "Starting upload with apollo-upload-client..." ;;
            await_with (uploadFile file) eq_refl
              (fun result => console_log "File uploaded successfully:")
              (fun error => console_error "Upload error:")
              (fun uploadResult =>
                 console_log "Upload result:" ;;
                 match truthy_value (data_uploadFile_url uploadResult) with
                 | Some imageUrl =>
                   console_log "File uploaded, updating user profile with URL:" ;;
                   let! _updated :=
                     updateUser userId
                       (mkInput None None (Some imageUrl) None) [ME_QUERY] in
                   console_log "Profile image uploaded successfully:" ;;
                   alert "Profile picture updated successfully!" ;; Done
                 | None => Throw (mkError "No URL returned from upload")
                 end)))
        (fun error =>
           console_error "Failed to upload profile image:" ;;
           console_error "Error details:" ;;
           alert ("Failed to upload image: "
                  ++ or_default (message error) "Please try again.")%string ;;
           setPreviewUrl (or_null currentImageUrl) ;; Done))
     (setUploading false ;; Done)).
Proof.
  intros Htype Hsize. unfold UploadClient.handleFileChange.
  rewrite Htype. cbn [negb].
  replace (UploadClient.MAX_FILE_SIZE <? File.size file)%N with false;
    [reflexivity|].
  symmetry. apply N.ltb_ge. exact Hsize.
Qed.

(** C6, the claim as stated fails: after a first successful upload the
    preview holds the data URL of the chosen file while the profile holds
    the URL the server returned; a second upload passes validation and is
    rejected, and the preview is set to the server's URL, not to the data
    URL it held before the attempt. *)
Lemma failed_upload_does_not_restore_preview :
  let before := steps uploadClient (logged_in uploadClient) events_first_upload in
  let after := steps uploadClient before events_failed_upload in
  option_map previewUrl (upload (state before))
    = Some (Some "data:image/jpeg;base64,AAAA")
  /\ option_map previewUrl (upload (state after)) = Some (Some "https://x/y.png")
  /\ option_map previewUrl (upload (state after))
     <> option_map previewUrl (upload (state before))
  /\ pending after = [].
Proof. vm_compute. repeat split. discriminate. Qed.

(** The reset is not the last word either: a [FileReader] that finishes
    after the upload was rejected sets the preview to the data URL of the
    rejected file. *)
Example late_reader_overrides_reset :
  let w := steps uploadClient (logged_in uploadClient)
             [FileChange (Some png_1MB);
              Settle 1 upload_rejected; Settle 0 upload_rejected] in
  upload (state w) = Some (mkUpload false (Some "data:image/png;base64,BBBB"))
  /\ pending w = [].
Proof. vm_compute. split; reflexivity. Qed.

Lemma or_null_cases (v : option string) :
  or_null v =
  match v with
  | Some url => if nonempty url then Some url else None
  | None => None
  end.
Proof. destruct v as [[|c url]|]; reflexivity. Qed.

(** C6, amended: when an upload attempt fails after validation passed
    (upload rejected, no URL in its result, or profile update rejected), the
    handler clears the uploading flag and sets the displayed preview to the
    image URL prop it was created with: that URL when it is a non-empty
    string, none when the prop is absent or empty.  This is the value held
    before the attempt exactly when the preview held that value when the
    attempt started, none included. *)
Theorem failed_upload_resets_preview_to_prop (answer : Answers) (w : World)
    (userId : string) (currentImageUrl : option string) (file : File.t)
    (us : UploadState) :
  startsWith (File.type file) "image/" = true ->
  (File.size file <= 5242880)%N ->
  upload (state w) = Some us ->
  attempt_fails answer userId file = true ->
  let w' := run answer
              (UploadClient.handleFileChange userId currentImageUrl (Some file)) w in
  let image := match currentImageUrl with
               | Some url => if nonempty url then Some url else None
               | None => None
               end in
  upload (state w') = Some (mkUpload false image)
  /\ (option_map previewUrl (upload (state w')) = Some (previewUrl us)
      <-> previewUrl us = image).
Proof.
  intros Htype Hsize Hus Hfail. cbv zeta. rewrite <- or_null_cases.
  assert (upload (state (run answer
            (UploadClient.handleFileChange userId currentImageUrl (Some file)) w))
          = Some (mkUpload false (or_null currentImageUrl))) as Hmain.
  { rewrite (handleFileChange_valid _ _ _ Htype Hsize).
    destruct w as [[r a bu up] p tr]. cbn in Hus. subst up.
    unfold attempt_fails in Hfail. unfold await, await_with. run_on.
    destruct (answer (uploadFile file)) as [uploadResult|e]; run_on;
      [|reflexivity].
    destruct (truthy_value (data_uploadFile_url uploadResult)) as [imageUrl|];
      run_on; [|reflexivity].
    destruct (answer (updateUser userId (mkInput None None (Some imageUrl) None)
                        [ME_QUERY])) as [updated|e]; run_on;
      [discriminate|reflexivity]. }
  rewrite Hmain. split; [reflexivity|]. cbn [option_map previewUrl].
  split; [intros H; injection H as H; now symmetry|intros ->; reflexivity].
Qed.

Lemma failed_upload_resets_preview_to_prop_witness :
  upload (state mounted_after_upload)
    = Some (mkUpload false (Some "data:image/jpeg;base64,AAAA"))
  /\ upload (state (run upload_rejected
                      (UploadClient.handleFileChange "u1" (Some "https://x/y.png")
                         (Some png_1MB))
                      mounted_after_upload))
     = Some (mkUpload false (Some "https://x/y.png"))
  /\ upload (state (run upload_rejected
                      (UploadClient.handleFileChange "u1" (Some "")
                         (Some png_1MB))
                      mounted_after_upload))
     = Some (mkUpload false None).
Proof.
  split; [reflexivity|]. split.
  - apply (failed_upload_resets_preview_to_prop upload_rejected
             mounted_after_upload "u1" (Some "https://x/y.png") png_1MB
             (mkUpload false (Some "data:image/jpeg;base64,AAAA")));
      solve [reflexivity | vm_compute; discriminate].
  - apply (failed_upload_resets_preview_to_prop upload_rejected
             mounted_after_upload "u1" (Some "") png_1MB
             (mkUpload false (Some "data:image/jpeg;base64,AAAA")));
      solve [reflexivity | vm_compute; discriminate].
Defined.

(** C7: when the upload's result carries a URL (a non-empty [url]), the
    next request after the upload is the profile update with
    [profilePictureUrl] equal to exactly that string, the other input fields
    absent, the caller's [userId], and a refetch of ME_QUERY requested with
    it. *)
Theorem upload_url_goes_to_updateUser (answer : Answers) (w : World)
    (userId : string) (currentImageUrl : option string) (file : File.t)
    (uploadResult : MutationResult UploadFileMutation) (imageUrl : string) :
  startsWith (File.type file) "image/" = true ->
  (File.size file <= 5242880)%N ->
  answer (uploadFile file) = Fulfilled uploadResult ->
  data_uploadFile_url uploadResult = Some imageUrl ->
  nonempty imageUrl = true ->
  let w' := run answer
              (UploadClient.handleFileChange userId currentImageUrl (Some file)) w in
  requests (trace w') =
  requests (trace w) ++
  [uploadFile file;
   updateUser userId (mkInput None None (Some imageUrl) None) [ME_QUERY]].
Proof.
  intros Htype Hsize Hup Hurl Hne. cbv zeta.
  rewrite (handleFileChange_valid _ _ _ Htype Hsize).
  unfold await, await_with. run_on. rewrite Hup. run_on.
  rewrite Hurl, (truthy_value_some _ Hne). run_on.
  destruct (answer (updateUser userId (mkInput None None (Some imageUrl) None)
                      [ME_QUERY])) as [updated|e]; run_on;
    world_fields; rewrite requests_app; reflexivity.
Qed.

Lemma upload_url_goes_to_updateUser_witness :
  requests (trace (run all_fulfilled
                     (UploadClient.handleFileChange "u1" None (Some jpeg_2MB))
                     mounted))
  = [uploadFile jpeg_2MB;
     updateUser "u1" (mkInput None None (Some "https://x/y.png") None) [ME_QUERY]].
Proof.
  apply (upload_url_goes_to_updateUser all_fulfilled mounted "u1" None jpeg_2MB
           (mkResult (Some (Build_UploadFileMutation (Some y_png))))
           "https://x/y.png");
    solve [reflexivity | vm_compute; discriminate].
Defined.

(** C8: a file of more than 5,242,880 bytes is rejected whatever its MIME
    type: the handler logs the selection, shows one alert and returns; it
    contains no call at all, so no request is made, and the state is left as
    it was. *)
Theorem oversized_file_rejected (userId : string) (currentImageUrl : option string)
    (file : File.t) :
  (5242880 < File.size file)%N ->
  exists text : string,
    UploadClient.handleFileChange userId currentImageUrl (Some file) =
    (console_log "Selected file:" ;; alert text ;; Done)
    /\ (text = "Please select an image file"
        \/ text = "File size must be less than 5MB")
    /\ forall (answer : Answers) (w : World),
         let w' := run answer
                     (UploadClient.handleFileChange userId currentImageUrl
                        (Some file)) w in
         calls (trace w') = calls (trace w)
         /\ alerts (trace w') = alerts (trace w) ++ [text]
         /\ state w' = state w /\ pending w' = pending w.
Proof.
  intros Hsize. unfold UploadClient.handleFileChange.
  destruct (startsWith (File.type file) "image/"); cbn [negb].
  - replace (UploadClient.MAX_FILE_SIZE <? File.size file)%N with true
      by (symmetry; apply N.ltb_lt; exact Hsize).
    eexists. split; [reflexivity|]. split; [right; reflexivity|].
    intros answer w. run_on. world_fields.
    rewrite calls_app, alerts_app, app_nil_r. repeat split; reflexivity.
  - eexists. split; [reflexivity|]. split; [left; reflexivity|].
    intros answer w. run_on. world_fields.
    rewrite calls_app, alerts_app, app_nil_r. repeat split; reflexivity.
Qed.

Lemma oversized_file_rejected_witness :
  (5242880 < File.size jpeg_10MB)%N
  /\ UploadClient.handleFileChange "u1" None (Some jpeg_10MB) =
     (console_log "Selected file:" ;;
      alert "File size must be less than 5MB" ;; Done)
  /\ calls (trace (run all_fulfilled
                     (UploadClient.handleFileChange "u1" None (Some pdf_10MB))
                     mounted)) = [].
Proof.
  split; [reflexivity|]. split; [reflexivity|].
  destruct (oversized_file_rejected "u1" None pdf_10MB eq_refl)
    as [text [_ [_ H]]].
  exact (proj1 (H all_fulfilled mounted)).
Defined.

(** C9: a file whose MIME type does not start with "image/" is rejected:
    the handler logs the selection, alerts "Please select an image file" and
    returns; it contains no call at all, so neither the upload nor the
    profile update is requested. *)
Theorem non_image_file_rejected (userId : string) (currentImageUrl : option string)
    (file : File.t) :
  startsWith (File.type file) "image/" = false ->
  UploadClient.handleFileChange userId currentImageUrl (Some file) =
  (console_log "Selected file:" ;; alert "Please select an image file" ;; Done)
  /\ forall (answer : Answers) (w : World),
       let w' := run answer
                   (UploadClient.handleFileChange userId currentImageUrl
                      (Some file)) w in
       calls (trace w') = calls (trace w)
       /\ alerts (trace w') = alerts (trace w) ++ ["Please select an image file"]
       /\ state w' = state w /\ pending w' = pending w.
Proof.
  intros Htype. unfold UploadClient.handleFileChange. rewrite Htype. cbn [negb].
  split; [reflexivity|].
  intros answer w. run_on. world_fields.
  rewrite calls_app, alerts_app, app_nil_r. repeat split; reflexivity.
Qed.

Lemma non_image_file_rejected_witness :
  UploadClient.handleFileChange "u1" None (Some text_1KB) =
  (console_log "Selected file:" ;; alert "Please select an image file" ;; Done).
Proof.
  apply (non_image_file_rejected "u1" None text_1KB). reflexivity.
Defined.

(** * Further properties of the handlers *)

Lemma console_errors_app (tr tr' : list Obs) :
  console_errors (tr ++ tr') = console_errors tr ++ console_errors tr'.
Proof.
  induction tr as [|o tr IH]; simpl; [reflexivity|].
  destruct o as [[]|]; simpl; now rewrite IH.
Qed.

(** Every path of [handleFileChange] for a chosen file, by the two
    validations and the answers to its two requests. *)
Ltac file_paths answer userId file :=
  unfold UploadClient.handleFileChange, await, await_with;
  destruct (startsWith (File.type file) "image/"); cbn [negb];
  [destruct (UploadClient.MAX_FILE_SIZE <? File.size file)%N;
   [run_on
   |run_on;
    destruct (answer (uploadFile file)) as [uploadResult|e]; run_on;
    [destruct (truthy_value (data_uploadFile_url uploadResult)) as [imageUrl|];
     run_on;
     [destruct (answer (updateUser userId (mkInput None None (Some imageUrl) None)
                          [ME_QUERY])) as [updated|e]; run_on
     |]
    |]]
  |run_on].

(** ** [handleFileChange] on every path *)

(** X1: whatever is selected and however the requests end, a handler that
    starts on an idle component leaves the uploading flag cleared: the
    [finally] block runs on every path that set it. *)
Theorem handleFileChange_leaves_idle (answer : Answers) (w : World)
    (userId : string) (currentImageUrl : option string) (file : option File.t)
    (us : UploadState) :
  upload (state w) = Some us ->
  uploading us = false ->
  let w' := run answer
              (UploadClient.handleFileChange userId currentImageUrl file) w in
  option_map uploading (upload (state w')) = Some false.
Proof.
  intros Hus Hidle. cbv zeta.
  destruct w as [[r a bu up] p tr]. cbn in Hus. subst up.
  destruct us as [u pv]. cbn in Hidle. subst u.
  destruct file as [file|]; [|reflexivity].
  file_paths answer userId file; reflexivity.
Qed.

Lemma handleFileChange_leaves_idle_witness :
  option_map uploading
    (upload (state (run upload_rejected
                      (UploadClient.handleFileChange "u1" None (Some png_1MB))
                      mounted))) = Some false.
Proof.
  apply (handleFileChange_leaves_idle upload_rejected mounted "u1" None
           (Some png_1MB) (mount_upload None)); reflexivity.
Defined.

(** X2: every selection of a file ends with exactly one alert, on each of
    the six paths (two validation failures, three request failures,
    success). *)
Theorem handleFileChange_one_alert (answer : Answers) (w : World)
    (userId : string) (currentImageUrl : option string) (file : File.t) :
  let w' := run answer
              (UploadClient.handleFileChange userId currentImageUrl (Some file)) w in
  exists text : string, alerts (trace w') = alerts (trace w) ++ [text].
Proof.
  cbv zeta. file_paths answer userId file; world_fields;
    rewrite alerts_app; eexists; reflexivity.
Qed.

(** X3: a selection makes no request, or the upload alone, or the upload
    followed by one profile update that carries the non-empty URL of the
    upload's result: nothing is retried, and the profile is never updated
    without a fulfilled upload. *)
Theorem handleFileChange_requests (answer : Answers) (w : World)
    (userId : string) (currentImageUrl : option string) (file : File.t) :
  let w' := run answer
              (UploadClient.handleFileChange userId currentImageUrl (Some file)) w in
  requests (trace w') = requests (trace w)
  \/ requests (trace w') = requests (trace w) ++ [uploadFile file]
  \/ exists (uploadResult : MutationResult UploadFileMutation) (imageUrl : string),
       answer (uploadFile file) = Fulfilled uploadResult
       /\ data_uploadFile_url uploadResult = Some imageUrl
       /\ nonempty imageUrl = true
       /\ requests (trace w') = requests (trace w) ++
            [uploadFile file;
             updateUser userId (mkInput None None (Some imageUrl) None) [ME_QUERY]].
Proof.
  cbv zeta.
  unfold UploadClient.handleFileChange, await, await_with.
  destruct (startsWith (File.type file) "image/"); cbn [negb];
    [|left; run_on; world_fields; rewrite requests_app; cbn; now rewrite app_nil_r].
  destruct (UploadClient.MAX_FILE_SIZE <? File.size file)%N;
    [left; run_on; world_fields; rewrite requests_app; cbn; now rewrite app_nil_r|].
  run_on.
  destruct (answer (uploadFile file)) as [uploadResult|e] eqn:Hup; run_on;
    [|right; left; world_fields; rewrite requests_app; reflexivity].
  destruct (truthy_value (data_uploadFile_url uploadResult)) as [imageUrl|] eqn:Hurl;
    run_on; [|right; left; world_fields; rewrite requests_app; reflexivity].
  right; right. exists uploadResult, imageUrl.
  assert (data_uploadFile_url uploadResult = Some imageUrl /\ nonempty imageUrl = true)
    as [Hd Hne].
  { unfold truthy_value in Hurl.
    destruct (data_uploadFile_url uploadResult) as [s|]; [|discriminate].
    destruct (nonempty s) eqn:Hs; [|discriminate].
    injection Hurl as ->. now split. }
  repeat split; try assumption.
  destruct (answer (updateUser userId (mkInput None None (Some imageUrl) None)
                      [ME_QUERY])) as [updated|e]; run_on;
    world_fields; rewrite requests_app; reflexivity.
Qed.

(** X4: when the upload or the profile update is rejected, the one alert
    shows the rejection's message after "Failed to upload image: ", and
    "Please try again." in its place when the message is empty.  The catch
    block logs two errors; a rejected upload has its [onError] callback log
    one more before them, three in all. *)
Theorem rejected_attempt_alerts_message (answer : Answers) (w : World)
    (userId : string) (currentImageUrl : option string) (file : File.t)
    (error : Error) :
  startsWith (File.type file) "image/" = true ->
  (File.size file <= 5242880)%N ->
  attempt_rejection answer userId file = Some error ->
  let w' := run answer
              (UploadClient.handleFileChange userId currentImageUrl (Some file)) w in
  alerts (trace w') = alerts (trace w) ++
    [if nonempty (message error)
     then ("Failed to upload image: " ++ message error)%string
     else "Failed to upload image: Please try again."]
  /\ console_errors (trace w') = console_errors (trace w) ++
       match answer (uploadFile file) with
       | Rejected _ =>
         ["Upload error:"; "Failed to upload profile image:"; "Error details:"]
       | Fulfilled _ => ["Failed to upload profile image:"; "Error details:"]
       end.
Proof.
  intros Htype Hsize Hrej. cbv zeta.
  rewrite (handleFileChange_valid _ _ _ Htype Hsize).
  unfold attempt_rejection in Hrej. unfold await, await_with. run_on.
  destruct (answer (uploadFile file)) as [uploadResult|e]; run_on.
  - destruct (truthy_value (data_uploadFile_url uploadResult)) as [imageUrl|];
      run_on; [|discriminate].
    destruct (answer (updateUser userId (mkInput None None (Some imageUrl) None)
                        [ME_QUERY])) as [updated|e]; run_on; [discriminate|].
    injection Hrej as ->. world_fields.
    rewrite alerts_app, console_errors_app. unfold or_default.
    destruct (nonempty (message error)); split; reflexivity.
  - injection Hrej as ->. world_fields.
    rewrite alerts_app, console_errors_app. unfold or_default.
    destruct (nonempty (message error)); split; reflexivity.
Qed.

Lemma rejected_attempt_alerts_message_witness :
  let w' := run upload_rejected_silently
              (UploadClient.handleFileChange "u1" None (Some png_1MB)) mounted in
  alerts (trace w') = ["Failed to upload image: Please try again."]
  /\ console_errors (trace w')
     = ["Upload error:"; "Failed to upload profile image:"; "Error details:"].
Proof.
  apply (rejected_attempt_alerts_message upload_rejected_silently mounted "u1"
           None png_1MB (mkError ""));
    solve [reflexivity | vm_compute; discriminate].
Defined.

(** X5: when the upload and the profile update are both fulfilled, the
    handler alerts success, logs no error, clears the uploading flag and
    does not set the preview itself: the preview comes from the
    [FileReader] callback it left pending, and is whatever [reader.result]
    holds when that fires, not the URL the server returned. *)
Theorem successful_upload_previews_local_file (answer : Answers) (w : World)
    (userId : string) (currentImageUrl : option string) (file : File.t)
    (us : UploadState) :
  startsWith (File.type file) "image/" = true ->
  (File.size file <= 5242880)%N ->
  upload (state w) = Some us ->
  attempt_fails answer userId file = false ->
  let w' := run answer
              (UploadClient.handleFileChange userId currentImageUrl (Some file)) w in
  upload (state w') = Some (mkUpload false (previewUrl us))
  /\ alerts (trace w') = alerts (trace w) ++ ["Profile picture updated successfully!"]
  /\ console_errors (trace w') = console_errors (trace w)
  /\ pending w' = pending w ++
       [Await (readAsDataURL file) (fun result => setPreviewUrl result ;; Done)]
  /\ upload (state (dispatch uploadClient (Settle (length (pending w)) answer) w'))
     = Some (mkUpload false (answer (readAsDataURL file))).
Proof.
  intros Htype Hsize Hus Hok. cbv zeta.
  rewrite (handleFileChange_valid _ _ _ Htype Hsize).
  destruct w as [[r a bu up] p tr]. cbn in Hus. subst up.
  unfold attempt_fails in Hok. unfold await, await_with. run_on.
  destruct (answer (uploadFile file)) as [uploadResult|e]; run_on; [|discriminate].
  destruct (truthy_value (data_uploadFile_url uploadResult)) as [imageUrl|];
    run_on; [|discriminate].
  destruct (answer (updateUser userId (mkInput None None (Some imageUrl) None)
                      [ME_QUERY])) as [updated|e]; run_on; [|discriminate].
  world_fields. rewrite alerts_app, console_errors_app, app_nil_r.
  repeat split; try reflexivity.
  unfold dispatch. cbn [issue perform suspend trace state pending].
  rewrite nth_error_app2 by apply Nat.le_refl. rewrite Nat.sub_diag.
  cbn [nth_error exec perform state apply_effect with_upload upload option_map
       uploading].
  reflexivity.
Qed.

Lemma successful_upload_previews_local_file_witness :
  let w' := run all_fulfilled
              (UploadClient.handleFileChange "u1" None (Some jpeg_2MB)) mounted in
  upload (state w') = Some (mkUpload false None)
  /\ upload (state (dispatch uploadClient (Settle 0 all_fulfilled) w'))
     = Some (mkUpload false (Some "data:image/jpeg;base64,AAAA")).
Proof.
  pose proof (successful_upload_previews_local_file all_fulfilled mounted "u1"
                None jpeg_2MB (mount_upload None) eq_refl
                ltac:(vm_compute; discriminate) eq_refl eq_refl)
    as [H1 [_ [_ [_ H5]]]].
  split; [exact H1|exact H5].
Defined.

(** ** The handlers of [AuthComponent] *)

(** X6: in both clients the orchestrator effect and the sign-out handler
    never show an alert, whatever the calls answer; a failure of theirs
    (a rejected token retrieval, login exchange, provider logout or backend
    logout) is reported by exactly one [console.error], and a run without
    failure by none. *)
Theorem auth_handlers_are_silent (v : Variant) (answer : Answers) (w : World)
    (a : bool) (u : option User.t) :
  let w1 := run answer (effect_login (client v) a u) w in
  let w2 := run answer (click_signOut (client v)) w in
  alerts (trace w1) = alerts (trace w)
  /\ alerts (trace w2) = alerts (trace w)
  /\ console_errors (trace w1) = console_errors (trace w) ++
       (if a && negb (truthy_obj u) then
          match answer getAccessToken with
          | Rejected _ => ["Backend login failed:"]
          | Fulfilled accessToken =>
            match truthy_value accessToken with
            | None => []
            | Some tok =>
              match answer (loginMutation tok) with
              | Rejected _ => ["Backend login failed:"]
              | Fulfilled _ => []
              end
            end
          end
        else [])
  /\ console_errors (trace w2) = console_errors (trace w) ++
       match answer logout with
       | Rejected _ => ["Logout failed:"]
       | Fulfilled _ =>
         match answer logoutMutation with
         | Rejected _ => ["Logout failed:"]
         | Fulfilled _ => []
         end
       end.
Proof.
  rewrite effect_login_client, click_signOut_client. cbv zeta.
  repeat match goal with |- _ /\ _ => split end;
    run_handler;
    try (destruct a, u; cbn [andb negb truthy_obj]; run_on;
         rewrite ?app_nil_r; try reflexivity);
    repeat match goal with
      | |- context [match answer ?c with _ => _ end] =>
        destruct (answer c); run_on
      | |- context [match truthy_value ?c with _ => _ end] =>
        destruct (truthy_value c); run_on
      | |- context [match data_login ?c with _ => _ end] =>
        destruct (data_login c); run_on
      end;
    world_fields; rewrite ?alerts_app, ?console_errors_app;
    cbn [alerts console_errors]; rewrite ?app_nil_r; reflexivity.
Qed.

(** * Further properties of the event loop *)

Lemma opt_eqb_refl (a : option string) : User.opt_eqb a a = true.
Proof. destruct a; cbn; [apply String.eqb_refl|reflexivity]. Qed.

Lemma user_eqb_refl (u : User.t) : User.eqb u u = true.
Proof. unfold User.eqb. now rewrite !String.eqb_refl, !opt_eqb_refl. Qed.

Lemma handleBackendLogin_cached (a : bool) (user : User.t) :
  UploadClient.handleBackendLogin a (Some user) = Done.
Proof. destruct a; reflexivity. Qed.

Lemma reconcile_ready (cl : Client) (st : State) :
  ready (reconcile cl st) = ready st.
Proof.
  unfold reconcile.
  destruct (change_file cl), (backendUser st), (ready st && authenticated st),
    (upload st); reflexivity.
Qed.

Lemma reconcile_authenticated (cl : Client) (st : State) :
  authenticated (reconcile cl st) = authenticated st.
Proof.
  unfold reconcile.
  destruct (change_file cl), (backendUser st), (ready st && authenticated st),
    (upload st); reflexivity.
Qed.

Lemma reconcile_upload (cl : Client) (st : State) :
  truthy_obj (upload (reconcile cl st)) =
  truthy_obj (change_file cl) && truthy_obj (backendUser st)
  && (ready st && authenticated st).
Proof.
  unfold reconcile.
  destruct (change_file cl), (backendUser st), (ready st && authenticated st);
    try reflexivity.
  destruct (upload st) eqn:E; cbn; [rewrite E|]; reflexivity.
Qed.

(** A turn ends in the state the re-render left. *)
Lemma step_state (v : Variant) (w : World) (ev : Event) :
  state (step (client v) w ev) =
  reconcile (client v) (state (dispatch (client v) ev w)).
Proof.
  unfold step.
  match goal with |- context [if ?b then _ else _] => destruct b end.
  - reflexivity.
  - now rewrite effect_login_client, exec_effect_login_state.
Qed.

Lemma step_eq (cl : Client) (w : World) (ev : Event) :
  step cl w ev =
  let w1 := dispatch cl ev w in
  let w2 := with_state (reconcile cl (state w1)) w1 in
  if Bool.eqb (authenticated (state w)) (authenticated (state w2))
     && same_user (backendUser (state w)) (backendUser (state w2))
  then w2
  else exec (effect_login cl (authenticated (state w2)) (backendUser (state w2))) w2.
Proof. reflexivity. Qed.

(** Settling the task that was suspended last resumes its continuation. *)
Lemma dispatch_settle_last (cl : Client) (answer : Answers) (c : Call)
    (k : settled c -> Async) (st : State) (p : list Async) (tr : list Obs) :
  dispatch cl (Settle (length p) answer) (mkWorld st (p ++ [Await c k]) tr) =
  exec (k (answer c)) (mkWorld st p tr).
Proof.
  unfold dispatch, remove_nth. cbn [pending state trace].
  rewrite nth_error_app2 by apply Nat.le_refl.
  rewrite Nat.sub_diag. cbn [nth_error].
  rewrite firstn_app, Nat.sub_diag, firstn_all. cbn [firstn].
  rewrite skipn_all2 by (rewrite length_app; cbn; lia).
  now rewrite !app_nil_r.
Qed.

(** Settling the task suspended before the last one resumes it and keeps
    the last one. *)
Lemma dispatch_settle_before_last (cl : Client) (answer : Answers) (c : Call)
    (k : settled c -> Async) (t : Async) (st : State) (p : list Async)
    (tr : list Obs) :
  dispatch cl (Settle (length p) answer)
    (mkWorld st ((p ++ [Await c k]) ++ [t]) tr) =
  exec (k (answer c)) (mkWorld st (p ++ [t]) tr).
Proof.
  unfold dispatch, remove_nth. cbn [pending state trace].
  rewrite <- app_assoc. cbn [app].
  rewrite nth_error_app2 by apply Nat.le_refl.
  rewrite Nat.sub_diag. cbn [nth_error].
  rewrite firstn_app, Nat.sub_diag, firstn_all. cbn [firstn].
  rewrite app_nil_r.
  replace (S (length p)) with (length p + 1) by lia.
  rewrite skipn_app, skipn_all2 by lia.
  replace (length p + 1 - length p) with 1 by lia. reflexivity.
Qed.

Ltac world_cbv :=
  repeat progress
    (cbv beta iota zeta delta
         [dispatch state ready authenticated backendUser upload pending trace
          with_state reconcile client uploadClient basicClient change_file
          effect_login click_signOut effect_meData query_skip
          UploadClient.meQuery_skip BasicClient.meQuery_skip
          UploadClient.syncMeData BasicClient.syncMeData meData_me me
          andb negb truthy_obj Bool.eqb same_user truthy_value nonempty
          perform suspend issue apply_effect with_backendUser with_upload
          option_map uploading previewUrl
          UploadClient.handleBackendLogin BasicClient.handleBackendLogin
          UploadClient.onSignOut BasicClient.onSignOut
          await await_with eq_rect
          data_uploadFile_url data uploadFile_ url remove_nth];
     cbn [exec try_catch try_finally seq app nth_error firstn skipn]).

Ltac use_answers :=
  repeat match goal with
  | H : ?answer ?c = _ |- context [?answer ?c] => rewrite H; world_cbv
  end.

(** Compute the innermost turn of the goal, the one taken from a world
    given by its fields. *)
Ltac turn :=
  match goal with
  | |- context [step ?cl (mkWorld ?st ?p ?tr) ?ev] =>
    let H := fresh "Hturn" in
    eassert (step cl (mkWorld st p tr) ev = _) as H
      by (rewrite step_eq; cbv zeta;
          first [rewrite dispatch_settle_last
                |rewrite dispatch_settle_before_last
                |idtac];
          cbv beta iota zeta delta
              [dispatch state upload backendUser ready authenticated andb
               change_file uploading client uploadClient basicClient];
          rewrite ?handleFileChange_valid by assumption;
          world_cbv; use_answers;
          rewrite ?user_eqb_refl; world_cbv; use_answers; reflexivity);
    rewrite H; clear H
  end.

(** X7: after any turn, the cells of [ProfileImageUpload] exist exactly
    when the page shows the backend profile, that is in the upload-capable
    client under [ready && authenticated && backendUser]; the plain client
    never has them. *)
Theorem upload_component_mounted_iff_profile_shown (v : Variant) (w : World)
    (ev : Event) :
  let st := state (step (client v) w ev) in
  truthy_obj (upload st) =
  match v with
  | Part000 => ready st && authenticated st && truthy_obj (backendUser st)
  | Part001 => false
  end.
Proof.
  cbv zeta. rewrite step_state.
  rewrite reconcile_upload, reconcile_ready, reconcile_authenticated,
    reconcile_backendUser.
  destruct v; cbn [client uploadClient basicClient change_file truthy_obj andb];
    [|reflexivity].
  destruct (ready _), (authenticated _), (truthy_obj _); reflexivity.
Qed.

Lemma provider_step_cached (v : Variant) (w : World) (user : User.t) (ev : Event) :
  backendUser (state w) = Some user ->
  provider_event ev = true ->
  backendUser (state (step (client v) w ev)) = Some user
  /\ trace (step (client v) w ev) = trace w
  /\ pending (step (client v) w ev) = pending w.
Proof.
  intros Hu Hev.
  assert (backendUser (state (dispatch (client v) ev w)) = Some user
          /\ trace (dispatch (client v) ev w) = trace w
          /\ pending (dispatch (client v) ev w) = pending w) as [Hd [Ht Hp]].
  { destruct ev; try discriminate; cbn [dispatch];
      rewrite ?effect_login_client, ?Hu, ?handleBackendLogin_cached;
      repeat split; exact Hu. }
  split; [rewrite step_backendUser; exact Hd|].
  unfold step. cbn [with_state state].
  rewrite reconcile_backendUser, Hd, effect_login_client, handleBackendLogin_cached.
  cbn [exec].
  match goal with |- context [if ?b then _ else _] => destruct b end;
    cbn [with_state trace pending]; split; assumption.
Qed.

(** X8: while a backend user is cached, no sequence of provider events
    (ready, authenticated going down and up again, re-runs of the effect)
    issues a call or changes the cached user: a provider session that
    starts with a user still cached gets no login exchange of its own. *)
Theorem cached_user_blocks_login (v : Variant) (user : User.t) (evs : list Event)
    (w : World) :
  backendUser (state w) = Some user ->
  forallb provider_event evs = true ->
  let w' := steps (client v) w evs in
  backendUser (state w') = Some user
  /\ trace w' = trace w /\ pending w' = pending w.
Proof.
  cbv zeta. revert w. induction evs as [|ev evs IH]; intros w Hu Hevs.
  - repeat split; assumption.
  - cbn [forallb] in Hevs. apply andb_prop in Hevs as [Hev Hevs].
    destruct (provider_step_cached v w user ev Hu Hev) as [Hu1 [Ht1 Hp1]].
    unfold steps. cbn [fold_left].
    destruct (IH (step (client v) w ev) Hu1 Hevs) as [Hu2 [Ht2 Hp2]].
    unfold steps in Hu2, Ht2, Hp2. rewrite Hu2, Ht2, Hp2. now repeat split.
Qed.

Lemma cached_user_blocks_login_witness :
  let w' := steps uploadClient mounted events_reauthenticate in
  backendUser (state w') = Some ann /\ trace w' = [] /\ pending w' = [].
Proof.
  apply (cached_user_blocks_login Part000 ann events_reauthenticate mounted);
    reflexivity.
Defined.

(** X9: from the first render, the provider becoming ready and
    authenticated, a non-empty token and an exchange that returns a user
    lead, in either client, to the page that shows that user's profile
    after exactly one login exchange, carrying that token, and with the
    "me" query no longer skipped; in the upload-capable client the upload
    component is mounted idle, its preview the user's picture URL when that
    is a non-empty string and none otherwise. *)
Theorem login_handshake (v : Variant) (answer : Answers) (tok : string)
    (result : MutationResult LoginMutation) (user : User.t) :
  answer getAccessToken = Fulfilled (Some tok) ->
  nonempty tok = true ->
  answer (loginMutation tok) = Fulfilled result ->
  data_login result = Some user ->
  let w := steps (client v) initial
             [PrivyReady; PrivyAuthenticated true; Settle 0 answer; Settle 0 answer] in
  state w = mkState true true (Some user)
              match v with
              | Part000 =>
                Some (mkUpload false
                        match User.profilePictureUrl user with
                        | Some url => if nonempty url then Some url else None
                        | None => None
                        end)
              | Part001 => None
              end
  /\ login_requests (trace w) = [loginMutation tok]
  /\ query_skip (client v) (backendUser (state w)) = false
  /\ render false (state w) = WelcomeView false (Some user).
Proof.
  intros Htok Hne Hlogin Huser.
  destruct tok as [|c tok]; [discriminate|].
  cbv zeta; unfold steps, initial; cbn [fold_left].
  destruct v; cbn [client]; do 4 turn; unfold mount_upload;
    rewrite ?or_null_cases; repeat split; reflexivity.
Qed.

Lemma login_handshake_witness :
  let w := steps uploadClient initial
             [PrivyReady; PrivyAuthenticated true;
              Settle 0 login_returns_picture; Settle 0 login_returns_picture] in
  state w = mkState true true (Some ann_with_picture)
              (Some (mkUpload false (Some "https://x/y.png")))
  /\ login_requests (trace w) = [loginMutation "tok_abc"].
Proof.
  pose proof (login_handshake Part000 login_returns_picture "tok_abc"
                (mkResult (Some (Build_LoginMutation (Some ann_with_picture))))
                ann_with_picture eq_refl eq_refl eq_refl eq_refl)
    as [Hstate [Hlogin _]].
  split; [exact Hstate|exact Hlogin].
Defined.

(** X10: when the provider's flag is still up at the moment a successful
    sign-out clears the backend user, the orchestrator effect runs again at
    once: the page asks the provider for a token, on its way to a new login
    exchange. *)
Theorem signOut_while_authenticated_restarts_login (v : Variant) (answer : Answers)
    (user : User.t) (us : UploadState) (p : list Async) (tr : list Obs)
    (r : MutationResult LogoutMutation) :
  answer logout = Fulfilled tt ->
  answer logoutMutation = Fulfilled r ->
  let w := mkWorld (mkState true true (Some user) (shown v us)) p tr in
  let w' := steps (client v) w
              [ClickSignOut; Settle (length p) answer; Settle (length p) answer] in
  state w' = mkState true true None None
  /\ pending w' = p ++ [effect_login (client v) true None]
  /\ calls (trace w') = calls tr ++ [logout; logoutMutation; getAccessToken].
Proof.
  intros Hout Hback. cbv zeta. unfold steps. cbn [fold_left].
  destruct v; cbn [shown client]; do 3 turn;
    cbn [state pending trace]; repeat rewrite <- app_assoc; cbn [app];
    rewrite calls_app; repeat split; reflexivity.
Qed.

Lemma signOut_while_authenticated_restarts_login_witness :
  calls (trace (steps uploadClient mounted
                  [ClickSignOut; Settle 0 all_fulfilled; Settle 0 all_fulfilled]))
  = [logout; logoutMutation; getAccessToken].
Proof.
  exact (proj2 (proj2
    (signOut_while_authenticated_restarts_login Part000 all_fulfilled ann
       (mount_upload None) [] [] (mkResult (Some (Build_LogoutMutation true)))
       eq_refl eq_refl))).
Defined.

(** X11: when the provider drops its flag between the two logout calls, a
    successful sign-out ends on the sign-in view with no backend user, the
    upload component unmounted, nothing pending and no call beyond the two
    logouts. *)
Theorem signOut_after_provider_dropped_flag (v : Variant) (answer : Answers)
    (user : User.t) (us : UploadState) (p : list Async) (tr : list Obs)
    (r : MutationResult LogoutMutation) :
  answer logout = Fulfilled tt ->
  answer logoutMutation = Fulfilled r ->
  let w := mkWorld (mkState true true (Some user) (shown v us)) p tr in
  let w' := steps (client v) w
              [ClickSignOut; Settle (length p) answer; PrivyAuthenticated false;
               Settle (length p) answer] in
  state w' = mkState true false None None
  /\ pending w' = p
  /\ calls (trace w') = calls tr ++ [logout; logoutMutation]
  /\ render false (state w') = SignInView.
Proof.
  intros Hout Hback. cbv zeta. unfold steps. cbn [fold_left].
  destruct v; cbn [shown client]; do 4 turn;
    cbn [state pending trace]; repeat rewrite <- app_assoc; cbn [app];
    rewrite calls_app; repeat split; reflexivity.
Qed.

Lemma signOut_after_provider_dropped_flag_witness :
  render false
    (state (steps basicClient
              (mkWorld (mkState true true (Some ann) None) [] [])
              [ClickSignOut; Settle 0 all_fulfilled; PrivyAuthenticated false;
               Settle 0 all_fulfilled]))
  = SignInView.
Proof.
  exact (proj2 (proj2 (proj2
    (signOut_after_provider_dropped_flag Part001 all_fulfilled ann
       (mount_upload None) [] [] (mkResult (Some (Build_LogoutMutation true)))
       eq_refl eq_refl)))).
Defined.

(** X12: once a file that passes validation has been chosen, the input is
    disabled: a further selection, whatever it is, changes nothing while
    the upload is in flight, so one upload request is issued, not two. *)
Theorem selection_ignored_while_uploading (user : User.t) (preview : option string)
    (p : list Async) (tr : list Obs) (file : File.t) (next : option File.t) :
  startsWith (File.type file) "image/" = true ->
  (File.size file <= 5242880)%N ->
  let w := mkWorld (mkState true true (Some user) (Some (mkUpload false preview)))
             p tr in
  let w1 := step uploadClient w (FileChange (Some file)) in
  step uploadClient w1 (FileChange next) = w1
  /\ upload (state w1) = Some (mkUpload true preview)
  /\ requests (trace w1) = requests tr ++ [uploadFile file].
Proof.
  intros Htype Hsize. cbv zeta. turn. turn.
  cbn [state pending trace upload]. repeat rewrite <- app_assoc. cbn [app].
  rewrite requests_app. repeat split; reflexivity.
Qed.

Lemma selection_ignored_while_uploading_witness :
  requests (trace (steps uploadClient mounted
                     [FileChange (Some jpeg_2MB); FileChange (Some png_1MB)]))
  = [uploadFile jpeg_2MB].
Proof.
  pose proof (selection_ignored_while_uploading ann None [] [] jpeg_2MB
                (Some png_1MB) eq_refl ltac:(vm_compute; discriminate))
    as [Hsame [_ Hreq]].
  unfold steps. cbn [fold_left]. unfold mounted, mount_upload, or_null, truthy.
  rewrite Hsame. exact Hreq.
Defined.

(** X13: a user record delivered by the "me" query replaces the cached
    backend user and leaves the mounted upload component's cells alone: the
    preview keeps its value even when the record carries another picture
    URL, because the prop only initialises it. *)
Theorem preview_does_not_follow_prop (cached fresh : User.t) (us : UploadState)
    (p : list Async) (tr : list Obs) :
  let w := mkWorld (mkState true true (Some cached) (Some us)) p tr in
  step uploadClient w (MeData (Some (Build_MeQuery (Some fresh)))) =
  mkWorld (mkState true true (Some fresh) (Some us)) p
    (tr ++ [Eff (setBackendUser (Some fresh))]).
Proof.
  cbv zeta. rewrite step_eq. world_cbv.
  destruct (User.eqb cached fresh); reflexivity.
Qed.

(** ** An upload that returns no URL (C10) *)



(** * The account panel *)

Lemma substring_0_length (s : string) : substring 0 (String.length s) s = s.
Proof. induction s as [|a s IH]; cbn; [reflexivity|now rewrite IH]. Qed.

Lemma substring_split (s : string) (n m1 m2 : nat) :
  substring n (m1 + m2) s = (substring n m1 s ++ substring (n + m1) m2 s)%string.
Proof.
  revert n m1. induction s as [|a s IH]; intros n m1.
  - destruct n, m1, m2; reflexivity.
  - destruct n as [|n].
    + destruct m1 as [|m1]; cbn [Nat.add].
      * reflexivity.
      * cbn. f_equal. apply (IH 0 m1).
    + cbn. apply IH.
Qed.

Lemma length_substring (s : string) (n m : nat) :
  String.length (substring n m s) = Nat.min m (String.length s - n).
Proof.
  revert n m. induction s as [|a s IH]; intros n m.
  - destruct n, m; reflexivity.
  - destruct n as [|n].
    + destruct m as [|m]; cbn; [reflexivity|]. rewrite (IH 0 m). f_equal. f_equal. lia.
    + cbn. apply IH.
Qed.

Lemma string_append_assoc (a b c : string) :
  ((a ++ b) ++ c = a ++ b ++ c)%string.
Proof. induction a as [|x a IH]; cbn; [reflexivity|now rewrite IH]. Qed.

(** A string is its first [a] characters, its last [b] and what lies
    between, when the two do not overlap. *)
Lemma substring_three (s : string) (a b : nat) :
  a + b <= String.length s ->
  s = (substring 0 a s
       ++ substring a (String.length s - b - a) s
       ++ substring (String.length s - b) b s)%string.
Proof.
  intros H.
  pose proof (substring_split s 0 a (String.length s - b - a)) as H1.
  pose proof (substring_split s 0 (String.length s - b) b) as H2.
  cbn [Nat.add] in H1, H2.
  replace (a + (String.length s - b - a)) with (String.length s - b) in H1 by lia.
  replace (String.length s - b + b) with (String.length s) in H2 by lia.
  rewrite substring_0_length in H2. rewrite H1 in H2.
  rewrite H2 at 1. apply string_append_assoc.
Qed.

(** X14: the wallet row shows [address.slice(0, 6)] and
    [address.slice(-4)], of lengths min(6, n) and min(4, n).  For an
    address of at least 10 characters they are its first six and last four
    characters and the n - 10 between them are hidden; for one of at most 4
    characters each slice is the whole address, so nothing is masked. *)
Theorem wallet_mask_shows_first_six_and_last_four (address : string) :
  let n := String.length address in
  let head := AccountPanel.slice address 0%Z (Some 6%Z) in
  let tail := AccountPanel.slice address (-4)%Z None in
  let hidden := AccountPanel.slice address 6%Z (Some (-4)%Z) in
  String.length head = Nat.min 6 n
  /\ String.length tail = Nat.min 4 n
  /\ (10 <= n ->
      address = (head ++ hidden ++ tail)%string /\ String.length hidden = n - 10)
  /\ (n <= 4 -> head = address /\ tail = address).
Proof.
  cbv zeta. unfold AccountPanel.slice, AccountPanel.slice_index.
  change (0 <? 0)%Z with false. change (-4 <? 0)%Z with true.
  change (6 <? 0)%Z with false. cbv iota.
  set (n := String.length address).
  replace (Z.to_nat (Z.max (Z.of_nat n + -4) 0)) with (n - 4) by lia.
  change (Z.to_nat 0) with 0. change (Z.to_nat 6) with 6.
  rewrite !length_substring. fold n.
  split; [lia|]. split; [lia|]. split.
  - intros Hn.
    replace (Nat.min 0 n) with 0 by lia. replace (Nat.min 6 n) with 6 by lia.
    split; [|lia].
    replace (6 - 0) with 6 by lia. replace (n - (n - 4)) with 4 by lia.
    apply (substring_three address 6 4). fold n. lia.
  - intros Hn.
    replace (Nat.min 0 n) with 0 by lia. replace (Nat.min 6 n) with n by lia.
    replace (n - 4) with 0 by lia. rewrite !Nat.sub_0_r.
    split; apply substring_0_length.
Qed.

Lemma wallet_mask_shows_first_six_and_last_four_witness :
  AccountPanel.wallet_text (AccountPanel.Build_Wallet long_address None)
    = " 0x1234...5678 (ethereum)"
  /\ AccountPanel.wallet_text (AccountPanel.Build_Wallet short_address (Some ""))
    = " 0xAb...0xAb (ethereum)"
  /\ String.length (AccountPanel.slice long_address 6%Z (Some (-4)%Z)) = 32.
Proof.
  split; [reflexivity|]. split; [reflexivity|].
  destruct (wallet_mask_shows_first_six_and_last_four long_address)
    as [_ [_ [Hlong _]]].
  exact (proj2 (Hlong ltac:(vm_compute; lia))).
Defined.

(** X15: the "Linked Accounts" list is rendered exactly when the user has
    at least one linked account, and then holds one item per account, in
    order: the account's type, ": " and its label.  The label is the first
    non-empty string among the e-mail address, the address and the username
    that are present, in this order of precedence, and "N/A" when there is
    none. *)
Theorem linked_accounts_labelled (privyUser : AccountPanel.PrivyUser) :
  let present (field : option string) : list string :=
    match field with Some s => [s] | None => [] end in
  let label (account : AccountPanel.Account) : string :=
    hd "N/A"
      (filter nonempty
         (present (option_map AccountPanel.email_address
                     (AccountPanel.account_email account))
          ++ present (AccountPanel.account_address account)
          ++ present (AccountPanel.account_username account))) in
  AccountPanel.linked_account_items privyUser =
  match AccountPanel.linkedAccounts privyUser with
  | Some (first :: rest) =>
    Some (map (fun account =>
                 (AccountPanel.account_type account ++ ": " ++ label account)%string)
            (first :: rest))
  | _ => None
  end.
Proof.
  cbv zeta. unfold AccountPanel.linked_account_items.
  destruct (AccountPanel.linkedAccounts privyUser) as [[|first rest]|];
    try reflexivity.
  cbn [length Nat.ltb Nat.leb]. f_equal. apply map_ext. intros account.
  f_equal. f_equal. unfold AccountPanel.account_label, truthy_value.
  destruct (AccountPanel.account_email account) as [[[|c e]]|];
    destruct (AccountPanel.account_address account) as [[|c' a]|];
    destruct (AccountPanel.account_username account) as [[|c'' n]|];
    reflexivity.
Qed.

Lemma linked_accounts_labelled_witness :
  AccountPanel.linked_account_items privy_ann =
  Some ["email: ann@example.com"; "wallet: 0xAb"; "twitter_oauth: ann";
        "passkey: N/A"].
Proof.
  rewrite (linked_accounts_labelled privy_ann). reflexivity.
Defined.

(** * The introspection script *)

Lemma on_stderr_map_stdout (l : list string) :
  Introspect.on_stderr (map Introspect.stdout l) = [].
Proof. induction l; cbn; auto. Qed.

Lemma on_stderr_app (a b : list Introspect.Line) :
  Introspect.on_stderr (a ++ b) = Introspect.on_stderr a ++ Introspect.on_stderr b.
Proof.
  induction a as [|l a IH]; cbn; [reflexivity|]. destruct l; cbn; now rewrite IH.
Qed.

(** X16: the script ends with status 0 only for a response that is ok,
    parses as JSON, carries no [errors] array (an empty one counts as
    errors) and yields a schema; it then writes nothing to standard error
    and starts standard output with the heading and the schema text.  On
    every other path it exits with status 1, having written to standard
    error and nothing to standard output. *)
Theorem introspect_exit_status (match_uploadFile match_file_types :
                                  string -> option (list string))
    (fetch : Outcome Introspect.Response) :
  let r := Introspect.introspect match_uploadFile match_file_types fetch in
  match Introspect.schema_of fetch with
  | Some schemaSDL =>
    Introspect.exit_status r = 0%N
    /\ Introspect.on_stderr (Introspect.lines r) = []
    /\ firstn 2 (Introspect.on_stdout (Introspect.lines r)) =
       [("=== Full GraphQL Schema ===" ++ Introspect.nl)%string; schemaSDL]
  | None =>
    Introspect.exit_status r = 1%N
    /\ Introspect.on_stdout (Introspect.lines r) = []
    /\ Introspect.on_stderr (Introspect.lines r) <> []
  end.
Proof.
  cbv zeta. unfold Introspect.schema_of, Introspect.introspect.
  destruct fetch as [response|e]; [|cbn; repeat split; discriminate].
  destruct (Introspect.ok response); cbn [negb].
  - destruct (Introspect.json response) as [result|e];
      [|cbn; repeat split; discriminate].
    destruct (Introspect.errors result) as [errs|];
      [cbn; repeat split; discriminate|].
    destruct (Introspect.printedSchema result) as [schemaSDL|e];
      [|cbn; repeat split; discriminate].
    cbn [Introspect.exit_status Introspect.lines]. split; [reflexivity|].
    split; [|reflexivity].
    cbn [app Introspect.on_stderr]. rewrite !on_stderr_app.
    destruct (match_uploadFile schemaSDL), (match_file_types schemaSDL); cbn;
      rewrite ?on_stderr_map_stdout; reflexivity.
  - destruct (Introspect.text response) as [t|e]; cbn; repeat split; discriminate.
Qed.
